(** * OAT image navigation (art/oat.c): a shallow embedding and its properties

    The development follows the C sources of the OAT navigator: the offset
    resolver, the image-context setup, the sequential walk over the dex-file
    record stream, the class and method resolvers and the code locator.

    Conventions of the embedding.
    - An address ([void *], [const uint8_t *]) is an integer; [NULL] is [0].
      Pointer arithmetic is byte-wise addition (the sources add to [void *])
      and wraps at the pointer width of the targets, [ptr_add].
    - A pointer to a C struct that the code only reads or fills in is the
      value of the struct, with [None] for a null pointer.  An output
      parameter is passed as its contents before the call and returned as
      its contents after the call.
    - The mapped image is read-only; reading a field through a pointer into
      it is a function of the address.
    - Dereferencing a null struct pointer is undefined behaviour in C; the
      embedding makes it the explicit result [NullDereference]. *)

From Stdlib Require Import ZArith List Bool Lia.
Import ListNotations.
Local Open Scope Z_scope.

(** ** Machine-level data *)

Definition ptr := Z.
Definition NULL : ptr := 0.

(** Arithmetic on [uint32_t] wraps modulo [2^32]. *)
Definition wrap32 (z : Z) : Z := z mod 2 ^ 32.

(** The targets the sources are configured for ([ARCHITECTURE_ARM] and
    [ARCHITECTURE_x86] of config_constants.h) have pointers of 32 bits; the
    sum of a pointer and an integer wraps at that width. *)
Definition pointer_bits : Z := 32.

Definition ptr_add (p : ptr) (n : Z) : ptr := (p + n) mod 2 ^ pointer_bits.

(** A C string handed in by the caller: the bytes of its buffer; the
    terminating NUL is implicit after the last listed byte. *)
Definition cstring := list Z.

Definition char_at (s : cstring) (i : nat) : Z := nth i s 0.

Fixpoint strlen (s : cstring) : nat :=
  match s with
  | [] => O
  | c :: s' => if c =? 0 then O else S (strlen s')
  end.

(** [strncmp s1 s2 n], reading both strings through an accessor, starting at
    offset [i]: at most [n] bytes are compared and the comparison stops after
    a NUL byte common to both. *)
Fixpoint strncmp_from (s1 s2 : nat -> Z) (i n : nat) : Z :=
  match n with
  | O => 0
  | S n' =>
      if s1 i =? s2 i
      then if s1 i =? 0 then 0 else strncmp_from s1 s2 (S i) n'
      else s1 i - s2 i
  end.

Definition strncmp (s1 s2 : nat -> Z) (n : nat) : Z := strncmp_from s1 s2 O n.

(** Result of a computation that may dereference a null pointer. *)
Inductive exec (A : Type) : Type :=
| Returns (a : A)
| NullDereference.
Arguments Returns {A} a.
Arguments NullDereference {A}.

Definition bind {A B : Type} (x : exec A) (k : A -> exec B) : exec B :=
  match x with
  | Returns a => k a
  | NullDereference => NullDereference
  end.

Notation "x <- e ;; k" := (bind e (fun x => k))
  (at level 61, e at next level, right associativity).

(** [p->field] for a struct pointer [p]. *)
Definition deref {A : Type} (p : option A) : exec A :=
  match p with
  | Some a => Returns a
  | None => NullDereference
  end.

(** The slot an output pointer designates after a call that may have been
    given a null pointer. *)
Definition slot_or {A : Type} (old : A) (r : option A) : A :=
  match r with
  | Some a => a
  | None => old
  end.

(** ** Structs of oat.h, with the fields oat.c uses *)

Record LocationString : Type := {
  length : Z;      (* uint32_t *)
  content : ptr    (* const char *, into the image, not NUL-terminated *)
}.

Record OatDexFileData : Type := {
  location_string : LocationString;
  dex_file_pointer : ptr;
  class_definition_offsets : ptr  (* const uint32_t *, into the image *)
}.

Record OatFile : Type := {
  begin : ptr;
  end_ : ptr;
  header : ptr;                   (* struct OatHeader *, into the image *)
  key_value_storage_start : ptr;
  dex_file_storage_start : ptr
}.

Record OatDexFile : Type := {
  data : OatDexFileData;
  oat_file : option OatFile;
  index : Z                       (* uint32_t *)
}.

Record OatMethodOffsets : Type := {
  code_offset_ : Z                (* uint32_t *)
}.

(** ** Collaborators outside art/oat.c

    [oat.c] includes [oat.h], the DEX parser and the record decoders, none
    of which is part of the sources at hand.  They are taken as parameters:
    the types of the structs they own, the fields [oat.c] reads from them,
    and the functions it calls.  The image is immutable, so each of them is
    a function of its input pointers and strings; a function with an output
    pointer returns its success flag together with what it stored in the
    slot. *)
Class Externals : Type := {
  (* DEX parser *)
  DexClass : Type;
  class_def : DexClass -> ptr;
  DexMethod : Type;
  class_method_idx : DexMethod -> Z;
  dex_FindClass : ptr -> cstring -> bool * DexClass;
  GetIndexForClassDef : ptr -> ptr -> Z;
  dex_FindDirectMethod : DexClass -> cstring -> cstring -> bool * DexMethod;
  dex_FindVirtualMethod : DexClass -> cstring -> cstring -> bool * DexMethod;
  (* OAT header: field reads through a header pointer *)
  key_value_store_offset : Z;        (* offsetof(struct OatHeader, key_value_store_) *)
  key_value_store_size_ : ptr -> Z;  (* header->key_value_store_size_ *)
  dex_file_count_ : ptr -> Z;        (* header->dex_file_count_ *)
  NumDexFiles : ptr -> Z;
  GetDexFileStoragePointer : ptr -> ptr;
  (* the mapped bytes *)
  load8 : ptr -> Z;
  load32 : ptr -> Z;
  (* ReadOatDexFileData(&data, end, &result, header): success flag, advanced
     cursor, decoded record *)
  ReadOatDexFileData : ptr -> ptr -> ptr -> bool * ptr * OatDexFileData;
  (* DecodeOatClassData(pointer, end, &result) *)
  OatClassData : Type;
  DecodeOatClassData : ptr -> ptr -> bool * OatClassData;
  GetOatMethodOffsets : OatClassData -> Z -> option OatMethodOffsets
}.

Section Oat.
Context {X : Externals}.

Record OatClass : Type := {
  dex_class : DexClass;
  oat_class_data : OatClassData;
  oat_dex_file : option OatDexFile
}.

Record OatMethod : Type := {
  dex_method : DexMethod;
  oat_method_offsets : option OatMethodOffsets;
  oat_class : option OatClass
}.

(** ** The functions of oat.c *)

Definition oat_PointerFromFileOffset (oat : option OatFile) (offset : Z)
  : ptr :=
  match oat with
  | None => NULL                               (* CHECK_RETURNNULL *)
  | Some f =>
      if offset =? 0 then NULL
      else ptr_add (begin f) offset
  end.

Definition oat_Setup (result : OatFile) (mem_begin mem_end : ptr)
  : bool * OatFile :=
  if negb (negb (mem_begin =? NULL) && negb (mem_end =? NULL))
  then (false, result)
  else if negb (mem_end >? mem_begin) then (false, result)
  else
    let hdr := mem_begin in
    let kv := ptr_add hdr key_value_store_offset in
    (true,
     {| begin := mem_begin;
        end_ := mem_end;
        header := hdr;
        key_value_storage_start := kv;
        dex_file_storage_start := ptr_add kv (key_value_store_size_ hdr) |}).

(** The [for] loop of [oat_FindDexFile]; [n] counts the iterations left,
    [i] is the loop counter, [cursor] the decode position ([data] in the
    source).  The counter stays below the [uint32_t] count it is compared
    with, so [i++] never wraps. *)
Fixpoint oat_FindDexFile_loop (n : nat) (i : Z) (cursor : ptr) (f : OatFile)
    (result : OatDexFile) (location : cstring) : bool * OatDexFile :=
  match n with
  | O => (false, result)                       (* Not found *)
  | S n' =>
      let '(ok, cursor', d) :=
        ReadOatDexFileData cursor (end_ f) (header f) in
      if negb ok
      then (false, {| data := d; oat_file := oat_file result;
                      index := index result |})
      else
        let result' := {| data := d; oat_file := Some f; index := i |} in
        if negb (Z.of_nat (strlen location) =? length (location_string d))
        then oat_FindDexFile_loop n' (i + 1) cursor' f result' location
        else if strncmp (char_at location)
                  (fun k => load8 (ptr_add (content (location_string d)) (Z.of_nat k)))
                  (strlen location) =? 0
        then (true, result')
        else oat_FindDexFile_loop n' (i + 1) cursor' f result' location
  end.

Definition oat_FindDexFile (oat : option OatFile)
    (result : option OatDexFile) (location : option cstring)
  : bool * option OatDexFile :=
  match oat, result, location with
  | Some f, Some r, Some loc =>
      let '(b, r') :=
        oat_FindDexFile_loop (Z.to_nat (NumDexFiles (header f))) 0
          (GetDexFileStoragePointer (header f)) f r loc in
      (b, Some r')
  | _, _, _ => (false, result)                 (* CHECK_RETURNFALSE *)
  end.

(** The [for] loop of [oat_GetOatDexFile]: [n] records are decoded into the
    same slot, one after the other. *)
Fixpoint oat_GetOatDexFile_loop (n : nat) (cursor : ptr) (f : OatFile)
    (d : OatDexFileData) : bool * OatDexFileData :=
  match n with
  | O => (true, d)
  | S n' =>
      let '(ok, cursor', d') :=
        ReadOatDexFileData cursor (end_ f) (header f) in
      if negb ok then (false, d')
      else oat_GetOatDexFile_loop n' cursor' f d'
  end.

Definition oat_GetOatDexFile (oat : option OatFile)
    (result : option OatDexFile) (index_ : Z) : bool * option OatDexFile :=
  match oat, result with
  | Some f, Some r =>
      if negb (index_ <? NumDexFiles (header f)) then (false, result)
      else
        let '(ok, d) :=
          oat_GetOatDexFile_loop (Z.to_nat (wrap32 (index_ + 1)))
            (GetDexFileStoragePointer (header f)) f (data r) in
        if negb ok
        then (false, Some {| data := d; oat_file := oat_file r;
                             index := index r |})
        else (true, Some {| data := d; oat_file := Some f; index := index_ |})
  | _, _ => (false, result)                    (* CHECK_RETURNFALSE *)
  end.

(** [class_definition_offsets[class_def_index]] of a dex-file record. *)
Definition class_def_offset_at (d : OatDexFile) (class_def_index : Z) : Z :=
  load32 (ptr_add (class_definition_offsets (data d)) (4 * class_def_index)).

(** The local [oat_class_def_pointer] of [oat_FindClassInDex]. *)
Definition oat_class_def_pointer (d : OatDexFile) (class_def_index : Z)
  : ptr :=
  let class_def_offset := class_def_offset_at d class_def_index in
  oat_PointerFromFileOffset (oat_file d) class_def_offset.

Definition oat_FindClassInDex (dexf : option OatDexFile)
    (clazz : option OatClass) (descriptor : option cstring)
  : exec (bool * option OatClass) :=
  match dexf, clazz, descriptor with
  | Some d, Some c, Some desc =>
      let '(found, dc) := dex_FindClass (dex_file_pointer (data d)) desc in
      if negb found
      then Returns (false, Some {| dex_class := dc;
                                   oat_class_data := oat_class_data c;
                                   oat_dex_file := oat_dex_file c |})
      else
        let class_def_index :=
          wrap32 (GetIndexForClassDef (dex_file_pointer (data d))
                                      (class_def dc)) in
        let p := oat_class_def_pointer d class_def_index in
        f <- deref (oat_file d) ;;
        let '(ok, cd) := DecodeOatClassData p (end_ f) in
        if negb ok
        then Returns (false, Some {| dex_class := dc; oat_class_data := cd;
                                     oat_dex_file := oat_dex_file c |})
        else Returns (true, Some {| dex_class := dc; oat_class_data := cd;
                                    oat_dex_file := Some d |})
  | _, _, _ => Returns (false, clazz)          (* CHECK_RETURNFALSE *)
  end.

(** The [for] loop of [oat_FindClass]; [dslot] and [cslot] are the contents
    of the two result slots. *)
Fixpoint oat_FindClass_loop (n : nat) (i : Z) (oat : OatFile)
    (dslot : OatDexFile) (cslot : OatClass) (descriptor : cstring)
  : exec (bool * OatDexFile * OatClass) :=
  match n with
  | O => Returns (false, dslot, cslot)
  | S n' =>
      let '(ok, r) := oat_GetOatDexFile (Some oat) (Some dslot) i in
      let dslot' := slot_or dslot r in
      if negb ok then Returns (false, dslot', cslot)
      else
        x <- oat_FindClassInDex (Some dslot') (Some cslot) (Some descriptor) ;;
        let cslot' := slot_or cslot (snd x) in
        if fst x then Returns (true, dslot', cslot')
        else oat_FindClass_loop n' (i + 1) oat dslot' cslot' descriptor
  end.

(** [oat_dex_ignored] and [oat_class_ignored] are the (uninitialised) local
    slots the function falls back to when given a null result pointer; what
    was written to them is lost on return. *)
Definition oat_FindClass (oat : option OatFile)
    (result_oat_dex_file : option OatDexFile) (result_clazz : option OatClass)
    (descriptor : option cstring)
    (oat_dex_ignored : OatDexFile) (oat_class_ignored : OatClass)
  : exec (bool * option OatDexFile * option OatClass) :=
  match oat, descriptor with
  | Some o, Some desc =>
      let dslot := slot_or oat_dex_ignored result_oat_dex_file in
      let cslot := slot_or oat_class_ignored result_clazz in
      x <- oat_FindClass_loop (Z.to_nat (dex_file_count_ (header o))) 0 o
             dslot cslot desc ;;
      let '(b, d, c) := x in
      Returns (b, option_map (fun _ => d) result_oat_dex_file,
                  option_map (fun _ => c) result_clazz)
  | _, _ => Returns (false, result_oat_dex_file, result_clazz)
  end.

Definition oat_FindDirectMethod (oat_class_ : option OatClass)
    (result : option OatMethod) (descriptor signature : option cstring)
  : bool * option OatMethod :=
  match oat_class_, result, descriptor, signature with
  | Some c, Some r, Some desc, Some sig =>
      let '(found, dm) := dex_FindDirectMethod (dex_class c) desc sig in
      if negb found
      then (false, Some {| dex_method := dm;
                           oat_method_offsets := oat_method_offsets r;
                           oat_class := oat_class r |})
      else
        let meth_off :=
          GetOatMethodOffsets (oat_class_data c) (class_method_idx dm) in
        (true, Some {| dex_method := dm; oat_method_offsets := meth_off;
                       oat_class := Some c |})
  | _, _, _, _ => (false, result)              (* CHECK_RETURNFALSE *)
  end.

Definition oat_FindVirtualMethod (oat_class_ : option OatClass)
    (result : option OatMethod) (descriptor signature : option cstring)
  : bool * option OatMethod :=
  match oat_class_, result, descriptor, signature with
  | Some c, Some r, Some desc, Some sig =>
      let '(found, dm) := dex_FindVirtualMethod (dex_class c) desc sig in
      if negb found
      then (false, Some {| dex_method := dm;
                           oat_method_offsets := oat_method_offsets r;
                           oat_class := oat_class r |})
      else
        let meth_off :=
          GetOatMethodOffsets (oat_class_data c) (class_method_idx dm) in
        (true, Some {| dex_method := dm; oat_method_offsets := meth_off;
                       oat_class := Some c |})
  | _, _, _, _ => (false, result)              (* CHECK_RETURNFALSE *)
  end.

Definition oat_FindMethod (oat_class_ : option OatClass)
    (result : option OatMethod) (descriptor signature : option cstring)
  : bool * option OatMethod :=
  let '(direct, r1) :=
    oat_FindDirectMethod oat_class_ result descriptor signature in
  if direct then (true, r1)
  else
    let '(virt, r2) :=
      oat_FindVirtualMethod oat_class_ r1 descriptor signature in
    if virt then (true, r2) else (false, r2).

Definition oat_HasQuickCompiledCode (m : option OatMethod) : bool :=
  match m with
  | None => false                              (* CHECK_RETURNFALSE *)
  | Some m' =>
      match oat_method_offsets m' with
      | Some _ => true
      | None => false
      end
  end.

Definition oat_GetQuickCompiledEntryPoint (m : option OatMethod) : exec ptr :=
  match m with
  | None => Returns NULL                       (* CHECK_RETURNNULL *)
  | Some m' =>
      c <- deref (oat_class m') ;;
      d <- deref (oat_dex_file c) ;;
      f <- deref (oat_file d) ;;
      let oat_base := begin f in
      o <- deref (oat_method_offsets m') ;;
      Returns (ptr_add oat_base (code_offset_ o))
  end.

End Oat.

(** ** The terse variant (Android_Projects/NdkTest/.../jni/art/oat.c)

    Its [oat_Setup], [oat_FindDexFile], method finders and code locator are
    textually the functions above; its class resolver, called
    [oat_FindClass] there, computes the class-metadata pointer itself. *)
Module Terse.
Section Terse.
Context {X : Externals}.

(** The local [oat_class_def_pointer] of the terse [oat_FindClass]. *)
Definition oat_class_def_pointer (f : OatFile) (d : OatDexFile)
    (class_def_index : Z) : ptr :=
  ptr_add (begin f) (class_def_offset_at d class_def_index).

Definition oat_FindClass (dexf : option OatDexFile)
    (clazz : option OatClass) (descriptor : option cstring)
  : exec (bool * option OatClass) :=
  match dexf, clazz, descriptor with
  | Some d, Some c, Some desc =>
      let '(found, dc) := dex_FindClass (dex_file_pointer (data d)) desc in
      if negb found
      then Returns (false, Some {| dex_class := dc;
                                   oat_class_data := oat_class_data c;
                                   oat_dex_file := oat_dex_file c |})
      else
        let class_def_index :=
          wrap32 (GetIndexForClassDef (dex_file_pointer (data d))
                                      (class_def dc)) in
        f <- deref (oat_file d) ;;
        let p := oat_class_def_pointer f d class_def_index in
        let '(ok, cd) := DecodeOatClassData p (end_ f) in
        if negb ok
        then Returns (false, Some {| dex_class := dc; oat_class_data := cd;
                                     oat_dex_file := oat_dex_file c |})
        else Returns (true, Some {| dex_class := dc; oat_class_data := cd;
                                    oat_dex_file := Some d |})
  | _, _, _ => Returns (false, clazz)          (* CHECK_RETURNFALSE *)
  end.

End Terse.
End Terse.

(** ** Notions the properties are stated with

    These are not code of [oat.c]: they name what the specification talks
    about (the forward walk over the record stream, an exact match of a
    location string, the three outcomes of a search). *)
Section Notions.
Context {X : Externals}.

(** A full forward walk decoding [n] records from [cursor]; [None] when one
    of them cannot be decoded. *)
Fixpoint forward_walk (n : nat) (cursor : ptr) (f : OatFile)
  : option (list OatDexFileData) :=
  match n with
  | O => Some []
  | S n' =>
      let '(ok, cursor', d) :=
        ReadOatDexFileData cursor (end_ f) (header f) in
      if ok then option_map (cons d) (forward_walk n' cursor' f) else None
  end.

(** The records of the image, when all [NumDexFiles] of them decode: the
    image is well formed exactly when this is [Some]. *)
Definition dex_file_stream (f : OatFile) : option (list OatDexFileData) :=
  forward_walk (Z.to_nat (NumDexFiles (header f)))
    (GetDexFileStoragePointer (header f)) f.

(** The bytes of a record's location string, read from the image. *)
Definition location_bytes (d : OatDexFileData) : list Z :=
  map (fun k => load8 (ptr_add (content (location_string d)) (Z.of_nat k)))
      (seq 0 (Z.to_nat (length (location_string d)))).

(** The bytes of a query string up to its terminator. *)
Definition query_bytes (location : cstring) : list Z :=
  firstn (strlen location) location.

Fixpoint bytes_eqb (a b : list Z) : bool :=
  match a, b with
  | [], [] => true
  | x :: a', y :: b' => (x =? y) && bytes_eqb a' b'
  | _, _ => false
  end.

(** Exact match: same byte length and same content. *)
Definition location_matches (location : cstring) (d : OatDexFileData) : bool :=
  (Z.of_nat (strlen location) =? length (location_string d))
  && bytes_eqb (query_bytes location) (location_bytes d).

(** Position of the first record of a list that matches the query. *)
Fixpoint first_match (location : cstring) (l : list OatDexFileData)
  : option nat :=
  match l with
  | [] => None
  | d :: l' =>
      if location_matches location d then Some O
      else option_map S (first_match location l')
  end.

(** The three outcomes the specification distinguishes. *)
Inductive Outcome : Type := found | not_found | failure.

(** Specification of [find_by_location]: walk the records from the start;
    a record that cannot be decoded is a failure, the first exact match is
    found, exhausting the count without a match is not-found. *)
Fixpoint spec_find_by_location_from (n : nat) (cursor : ptr) (f : OatFile)
    (location : cstring) : Outcome :=
  match n with
  | O => not_found
  | S n' =>
      let '(ok, cursor', d) :=
        ReadOatDexFileData cursor (end_ f) (header f) in
      if ok
      then if location_matches location d then found
           else spec_find_by_location_from n' cursor' f location
      else failure
  end.

Definition spec_find_by_location (f : OatFile) (location : cstring)
  : Outcome :=
  spec_find_by_location_from (Z.to_nat (NumDexFiles (header f)))
    (GetDexFileStoragePointer (header f)) f location.

(** Specification of [find_class] on a dex-file record of image [f]: the
    DEX parser finding no such class is not-found; a class whose metadata
    cannot be decoded at the resolved pointer is a failure. *)
Definition spec_find_class (f : OatFile) (d : OatDexFile)
    (descriptor : cstring) : Outcome :=
  let '(hit, dc) := dex_FindClass (dex_file_pointer (data d)) descriptor in
  if hit
  then
    let idx :=
      wrap32 (GetIndexForClassDef (dex_file_pointer (data d)) (class_def dc)) in
    let p := oat_PointerFromFileOffset (Some f) (class_def_offset_at d idx) in
    if fst (DecodeOatClassData p (end_ f)) then found else failure
  else not_found.

(** What a [bool] result tells the caller about an outcome. *)
Definition reported (o : Outcome) : bool :=
  match o with
  | found => true
  | not_found => false
  | failure => false
  end.

(** The dex-file record at position [i] of the stream of image [f], with
    its back-reference and index. *)
Definition record_at (f : OatFile) (i : Z) (d : OatDexFileData) : OatDexFile :=
  {| data := d; oat_file := Some f; index := i |}.

(** The record at position [k] of a walk from [cursor]: the last one of a
    walk over [k + 1] records, when they all decode. *)
Definition walk_record (cursor : ptr) (f : OatFile) (k : nat)
  : option OatDexFileData :=
  match forward_walk (S k) cursor f with
  | Some l => nth_error l k
  | None => None
  end.

(** The record at position [k] of the stream of image [f]. *)
Definition stream_record (f : OatFile) (k : nat) : option OatDexFileData :=
  walk_record (GetDexFileStoragePointer (header f)) f k.

(** Exact match of a query with a record's location, as a proposition. *)
Definition exact_match (location : cstring) (d : OatDexFileData) : Prop :=
  Z.of_nat (strlen location) = length (location_string d)
  /\ query_bytes location = location_bytes d.

(** The class-definition offset the class resolvers look up for a
    descriptor the DEX parser finds in dex-file record [d]. *)
Definition resolved_class_def_index (d : OatDexFile) (descriptor : cstring)
  : Z :=
  let dc := snd (dex_FindClass (dex_file_pointer (data d)) descriptor) in
  wrap32 (GetIndexForClassDef (dex_file_pointer (data d)) (class_def dc)).

Definition resolved_class_offset (d : OatDexFile) (descriptor : cstring) : Z :=
  class_def_offset_at d (resolved_class_def_index d descriptor).

End Notions.

(** ** A sample image

    A small image used to run the functions: two dex-file records,
    ["classes.dex"] and ["classes2.dex"], mapped at address 4096.  The
    layouts read by the sample collaborators are simplified ones. *)
Module Sample.

Definition image_base : ptr := 4096.

Definition image_bytes : list Z :=
  [ 111; 97; 116; 10; 2; 0; 0; 0; 4; 0; 0; 0; 107; 0; 118; 0;
    11; 0; 0; 0; 99; 108; 97; 115; 115; 101; 115; 46; 100; 101; 120; 254;
    202; 0; 0; 75; 0; 0; 0; 0; 0; 0; 0; 160; 15; 0; 0; 12;
    0; 0; 0; 99; 108; 97; 115; 115; 101; 115; 50; 46; 100; 101; 120; 239;
    190; 0; 0; 81; 0; 0; 0; 86; 0; 0; 0; 2; 0; 0; 0; 65;
    66; 1; 0; 0; 0; 66; 3; 0; 0; 0; 120; 0; 0; 0; 0; 0;
    0; 0; 130; 0; 0; 0; 0; 0; 0; 0; 0; 0; 0; 0; 0; 0;
    0; 0; 0; 0; 0; 0; 0; 0; 0; 0; 0; 0; 0; 0; 0; 0;
    0; 0; 0; 0; 0; 0; 0; 0; 0; 0; 0; 0 ].

Definition byte_at (a : ptr) : Z :=
  if a <? image_base then 0
  else nth (Z.to_nat (a - image_base)) image_bytes 0.

(** Little-endian 32-bit read. *)
Definition word_at (a : ptr) : Z :=
  byte_at a + 256 * byte_at (a + 1) + 65536 * byte_at (a + 2)
  + 16777216 * byte_at (a + 3).

Definition no_record : OatDexFileData :=
  {| location_string := {| length := 0; content := NULL |};
     dex_file_pointer := NULL;
     class_definition_offsets := NULL |}.

(** One record: length, content, checksum, dex-file offset, then one class
    offset per class definition of the dex module. *)
Definition read_record (cursor end' hdr : ptr) : bool * ptr * OatDexFileData :=
  if cursor + 4 >? end' then (false, cursor, no_record)
  else
    let len := word_at cursor in
    let c1 := cursor + 4 in
    if c1 + len + 8 >? end' then (false, cursor, no_record)
    else
      let dexp := hdr + word_at (c1 + len + 4) in
      let c3 := c1 + len + 8 in
      let next := c3 + 4 * word_at dexp in
      if next >? end' then (false, cursor, no_record)
      else (true, next,
            {| location_string := {| length := len; content := c1 |};
               dex_file_pointer := dexp;
               class_definition_offsets := c3 |}).

(** A sample dex module: a class count followed by one-byte class names;
    the class handle is the address of the name. *)
Fixpoint find_name (n : nat) (a : ptr) (c : Z) : bool * ptr :=
  match n with
  | O => (false, NULL)
  | S n' => if byte_at a =? c then (true, a) else find_name n' (a + 1) c
  end.

Definition find_class (dexp : ptr) (descriptor : cstring) : bool * ptr :=
  match descriptor with
  | [c] => find_name (Z.to_nat (word_at dexp)) (dexp + 4) c
  | _ => (false, NULL)
  end.

(** Sample methods: direct ["d"] (index 0) and ["e"] (index 1), virtual
    ["v"] (index 2). *)
Definition find_direct (_ : ptr) (_ signature : cstring) : bool * Z :=
  match signature with
  | [100] => (true, 0)
  | [101] => (true, 1)
  | _ => (false, 0)
  end.

Definition find_virtual (_ : ptr) (_ signature : cstring) : bool * Z :=
  match signature with
  | [118] => (true, 2)
  | _ => (false, 0)
  end.

(** Class metadata: a method count followed by one code offset per method,
    0 for a method that was not compiled. *)
Definition decode_class (p end' : ptr) : bool * ptr :=
  if p =? NULL then (false, NULL)
  else if p + 4 >? end' then (false, NULL)
  else (true, p).

Definition method_offsets (cd : ptr) (idx : Z) : option OatMethodOffsets :=
  let k := word_at (cd + 4 + 4 * idx) in
  if k =? 0 then None else Some {| code_offset_ := k |}.

#[export] Instance externals : Externals := {|
  DexClass := ptr;
  class_def := fun c => c;
  DexMethod := Z;
  class_method_idx := fun m => m;
  dex_FindClass := find_class;
  GetIndexForClassDef := fun dexp cd => cd - (dexp + 4);
  dex_FindDirectMethod := find_direct;
  dex_FindVirtualMethod := find_virtual;
  key_value_store_offset := 12;
  key_value_store_size_ := fun h => word_at (h + 8);
  dex_file_count_ := fun h => word_at (h + 4);
  NumDexFiles := fun h => word_at (h + 4);
  GetDexFileStoragePointer := fun h => h + 12 + word_at (h + 8);
  load8 := byte_at;
  load32 := word_at;
  ReadOatDexFileData := read_record;
  OatClassData := ptr;
  DecodeOatClassData := decode_class;
  GetOatMethodOffsets := method_offsets
|}.

Definition blank_file : OatFile :=
  {| begin := 0; end_ := 0; header := 0;
     key_value_storage_start := 0; dex_file_storage_start := 0 |}.

(** The image context [oat_Setup] builds for the whole mapping, and one for
    a mapping cut short inside the second record. *)
Definition image : OatFile := snd (oat_Setup blank_file 4096 (4096 + 140)).
Definition truncated : OatFile := snd (oat_Setup blank_file 4096 (4096 + 60)).

Definition blank_dex : OatDexFile :=
  {| data := no_record; oat_file := None; index := 0 |}.
Definition blank_class : OatClass :=
  {| dex_class := 0; oat_class_data := 0; oat_dex_file := None |}.
Definition blank_method : OatMethod :=
  {| dex_method := 0; oat_method_offsets := None; oat_class := None |}.

(** ["classes.dex"], ["classes2.dex"] and the prefix ["classes"]. *)
Definition classes_dex : cstring :=
  [99; 108; 97; 115; 115; 101; 115; 46; 100; 101; 120].
Definition classes2_dex : cstring :=
  [99; 108; 97; 115; 115; 101; 115; 50; 46; 100; 101; 120].
Definition classes_prefix : cstring := [99; 108; 97; 115; 115; 101; 115].

(** The two dex-file records of [image]. *)
Definition record0 : OatDexFile :=
  record_at image 0
    {| location_string := {| length := 11; content := 4116 |};
       dex_file_pointer := 4171;
       class_definition_offsets := 4135 |}.
Definition record1 : OatDexFile :=
  record_at image 1
    {| location_string := {| length := 12; content := 4147 |};
       dex_file_pointer := 4177;
       class_definition_offsets := 4167 |}.

(** Class ["B"] of the second record, as the class resolver returns it. *)
Definition class_B : OatClass :=
  {| dex_class := 4181; oat_class_data := 4182;
     oat_dex_file := Some record1 |}.

(** Its direct methods ["d"], compiled at offset 120, and ["e"], not
    compiled. *)
Definition method_d : OatMethod :=
  {| dex_method := 0;
     oat_method_offsets := Some {| code_offset_ := 120 |};
     oat_class := Some class_B |}.
Definition method_e : OatMethod :=
  {| dex_method := 1; oat_method_offsets := None;
     oat_class := Some class_B |}.

(** Descriptors ["A"], ["B"], ["C"]; signatures ["d"], ["e"], ["v"]. *)
Definition desc_A : cstring := [65].
Definition desc_B : cstring := [66].
Definition desc_C : cstring := [67].
Definition sig_d : cstring := [100].
Definition sig_e : cstring := [101].
Definition sig_v : cstring := [118].

End Sample.

(** ** Further functions of oat.c

    [oat_GetClass] asks the DEX parser for a class by its definition index
    ([dex_GetClass], which is not part of the sources at hand), and
    [oat_GetQuickCompiledMemoryPointer] passes the entry point through the
    architecture's macro ([InstructionPointerToCodePointer] in the richer
    file, [EntryPointToCodePointer] in the terse one).  Both collaborators
    are parameters. *)

(** A [uint16_t] parameter holds its argument modulo [2^16]. *)
Definition wrap16 (z : Z) : Z := z mod 2 ^ 16.

Section OatIndexed.
Context {X : Externals}.
Variable dex_GetClass : ptr -> Z -> bool * DexClass.
Variable InstructionPointerToCodePointer : ptr -> ptr.

Definition oat_GetClass (dexf : option OatDexFile) (clazz : option OatClass)
    (class_def_index_ : Z) : exec (bool * option OatClass) :=
  let class_def_index := wrap16 class_def_index_ in
  match dexf, clazz with
  | Some d, Some c =>
      let '(ok, dc) :=
        dex_GetClass (dex_file_pointer (data d)) class_def_index in
      if negb ok
      then Returns (false, Some {| dex_class := dc;
                                   oat_class_data := oat_class_data c;
                                   oat_dex_file := oat_dex_file c |})
      else
        let class_def_offset := class_def_offset_at d class_def_index in
        let p := oat_PointerFromFileOffset (oat_file d) class_def_offset in
        f <- deref (oat_file d) ;;
        let '(ok', cd) := DecodeOatClassData p (end_ f) in
        if negb ok'
        then Returns (false, Some {| dex_class := dc; oat_class_data := cd;
                                     oat_dex_file := oat_dex_file c |})
        else Returns (true, Some {| dex_class := dc; oat_class_data := cd;
                                    oat_dex_file := Some d |})
  | _, _ => Returns (false, clazz)             (* CHECK_RETURNFALSE *)
  end.

Definition oat_GetQuickCompiledMemoryPointer (m : option OatMethod)
  : exec ptr :=
  p <- oat_GetQuickCompiledEntryPoint m ;;
  Returns (InstructionPointerToCodePointer p).

End OatIndexed.

(** Collaborators for the sample image: classes by definition index in the
    sample dex module, and a code pointer with the low (mode) bit cleared. *)
Definition sample_get_class (dexp : ptr) (idx : Z) : bool * ptr :=
  if (0 <=? idx) && (idx <? Sample.word_at dexp)
  then (true, dexp + 4 + idx)
  else (false, NULL).

Definition sample_code_pointer (p : ptr) : ptr := p - p mod 2.

(** A context over the zero bytes at the end of the sample mapping: its
    header counts no dex-file record. *)
Definition empty_image : OatFile :=
  snd (oat_Setup (X := Sample.externals) Sample.blank_file 4198 4236).

(** A context that shares [header] and [end_] with the sample image and
    differs in the other fields. *)
Definition relocated_image : OatFile :=
  {| begin := 0; end_ := end_ Sample.image; header := header Sample.image;
     key_value_storage_start := 0; dex_file_storage_start := 0 |}.

(** Virtual method ["v"] of class ["B"], compiled at offset 130. *)
Definition sample_method_v : OatMethod (X := Sample.externals) :=
  @Build_OatMethod Sample.externals 2 (Some {| code_offset_ := 130 |})
    (Some Sample.class_B).

(** Reduction of one step of a loop body, leaving the functions it calls
    folded. *)
Ltac loop_simpl :=
  cbv beta iota zeta delta [slot_or negb fst snd bind reported].

Ltac loop_simpl_in H :=
  cbv beta iota zeta delta [slot_or negb fst snd bind reported] in H.

(** * Properties *)

Section OffsetResolver.
Context {X : Externals}.

Lemma wrap32_small (z : Z) : 0 <= z < 2 ^ 32 -> wrap32 z = z.
Proof. intros H. unfold wrap32. apply Z.mod_small. exact H. Qed.

(** A pointer sum that stays inside the address space is the integer
    sum. *)
Lemma ptr_add_small (p : ptr) (n : Z) :
  0 <= p -> 0 <= n -> p + n < 2 ^ pointer_bits -> ptr_add p n = p + n.
Proof. intros Hp Hn Hlt. unfold ptr_add. apply Z.mod_small. lia. Qed.

(** C7.  For an image context [f] and a 32-bit offset [o], the offset
    resolver returns the pointer sum of [begin f] and [o] when [o > 0],
    which is the number [begin f + o] whenever that lies inside the address
    space, and [NULL] when [o = 0]; the result does not depend on [end_ f],
    so no bounds check is made. *)
Theorem oat_PointerFromFileOffset_spec (f : OatFile) (o : Z) :
  0 <= o < 2 ^ 32 ->
  (0 < o -> oat_PointerFromFileOffset (Some f) o = ptr_add (begin f) o)
  /\ (0 < o -> 0 <= begin f -> begin f + o < 2 ^ pointer_bits ->
      oat_PointerFromFileOffset (Some f) o = begin f + o)
  /\ (o = 0 -> oat_PointerFromFileOffset (Some f) o = NULL)
  /\ (forall e' : ptr,
        oat_PointerFromFileOffset
          (Some {| begin := begin f; end_ := e'; header := header f;
                   key_value_storage_start := key_value_storage_start f;
                   dex_file_storage_start := dex_file_storage_start f |}) o
        = oat_PointerFromFileOffset (Some f) o).
Proof.
  intros Ho. unfold oat_PointerFromFileOffset.
  split; [| split; [| split]].
  - intros Hpos. destruct (Z.eqb_spec o 0); [lia | reflexivity].
  - intros Hpos Hb Hfit. destruct (Z.eqb_spec o 0); [lia |].
    apply ptr_add_small; [exact Hb | lia | exact Hfit].
  - intros ->. reflexivity.
  - reflexivity.
Qed.

End OffsetResolver.

Section ImageContext.
Context {X : Externals}.

(** C9.  [oat_Setup] fails exactly when [mem_begin] is null, [mem_end] is
    null or [mem_end <= mem_begin], leaving the context untouched; on success
    it stores [begin], [end_] and the header view at [begin] and derives the
    two region starts from the header alone, as pointer sums (the numbers
    [begin + fixed header size] and that [+ key_value_store_size_] whenever
    these lie inside the address space).  The condition for success does
    not mention the key-value store size: [dex_file_storage_start] is not
    compared with [mem_end]. *)
Theorem oat_Setup_spec (result : OatFile) (mem_begin mem_end : ptr) :
  (fst (oat_Setup result mem_begin mem_end) = false
     <-> mem_begin = NULL \/ mem_end = NULL \/ mem_end <= mem_begin)
  /\ (fst (oat_Setup result mem_begin mem_end) = false ->
        snd (oat_Setup result mem_begin mem_end) = result)
  /\ (fst (oat_Setup result mem_begin mem_end) = true ->
        snd (oat_Setup result mem_begin mem_end)
        = {| begin := mem_begin;
             end_ := mem_end;
             header := mem_begin;
             key_value_storage_start :=
               ptr_add mem_begin key_value_store_offset;
             dex_file_storage_start :=
               ptr_add (ptr_add mem_begin key_value_store_offset)
                 (key_value_store_size_ mem_begin) |})
  /\ (fst (oat_Setup result mem_begin mem_end) = true ->
      0 <= mem_begin ->
      0 <= key_value_store_offset ->
      0 <= key_value_store_size_ mem_begin ->
      mem_begin + key_value_store_offset + key_value_store_size_ mem_begin
      < 2 ^ pointer_bits ->
      key_value_storage_start (snd (oat_Setup result mem_begin mem_end))
      = mem_begin + key_value_store_offset
      /\ dex_file_storage_start (snd (oat_Setup result mem_begin mem_end))
         = mem_begin + key_value_store_offset
           + key_value_store_size_ mem_begin).
Proof.
  unfold oat_Setup, NULL.
  destruct (Z.eqb_spec mem_begin 0) as [Hb | Hb];
    destruct (Z.eqb_spec mem_end 0) as [He | He]; simpl;
    try (repeat split; auto; discriminate).
  destruct (Z.gtb_spec mem_end mem_begin) as [Hlt | Hle]; simpl.
  - split; [| split; [| split]]; intros; try discriminate;
      try reflexivity.
    + split; [discriminate |].
      intros [H | [H | H]]; [contradiction | contradiction | lia].
    + assert (Hkv : ptr_add mem_begin key_value_store_offset
                    = mem_begin + key_value_store_offset).
      { apply ptr_add_small; try assumption.
        unfold pointer_bits in *. lia. }
      rewrite Hkv. split; [reflexivity |].
      apply ptr_add_small; try assumption. lia.
  - split; [| split; [| split]]; intros; try discriminate;
      try reflexivity.
    split; [intros _ | reflexivity]. right; right; exact Hle.
Qed.

End ImageContext.

Section CodeLocator.
Context {X : Externals}.

Lemma entry_point_absent_offsets (m : OatMethod) :
  oat_method_offsets m = None ->
  oat_GetQuickCompiledEntryPoint (Some m) = NullDereference.
Proof.
  intros Hnone. unfold oat_GetQuickCompiledEntryPoint.
  destruct (oat_class m) as [c |]; simpl; [| reflexivity].
  destruct (oat_dex_file c) as [d |]; simpl; [| reflexivity].
  destruct (oat_file d) as [f |]; simpl; [| reflexivity].
  rewrite Hnone. reflexivity.
Qed.

Lemma oat_FindDirectMethod_found (oc : option OatClass)
    (result : option OatMethod) (descriptor signature : option cstring)
    (m : OatMethod) :
  oat_FindDirectMethod oc result descriptor signature = (true, Some m) ->
  exists c desc sig,
    oc = Some c /\ descriptor = Some desc /\ signature = Some sig
    /\ dex_FindDirectMethod (dex_class c) desc sig = (true, dex_method m)
    /\ oat_method_offsets m
       = GetOatMethodOffsets (oat_class_data c) (class_method_idx (dex_method m))
    /\ oat_class m = Some c.
Proof.
  unfold oat_FindDirectMethod.
  destruct oc as [c |]; [| destruct result; discriminate].
  destruct result as [r |]; [| discriminate].
  destruct descriptor as [desc |]; [| discriminate].
  destruct signature as [sig |]; [| discriminate].
  destruct (dex_FindDirectMethod (dex_class c) desc sig) as [hit dm] eqn:E.
  destruct hit; simpl; [| discriminate].
  intros H. injection H as <-. exists c, desc, sig. simpl. auto 10.
Qed.

Lemma oat_FindVirtualMethod_found (oc : option OatClass)
    (result : option OatMethod) (descriptor signature : option cstring)
    (m : OatMethod) :
  oat_FindVirtualMethod oc result descriptor signature = (true, Some m) ->
  exists c desc sig,
    oc = Some c /\ descriptor = Some desc /\ signature = Some sig
    /\ dex_FindVirtualMethod (dex_class c) desc sig = (true, dex_method m)
    /\ oat_method_offsets m
       = GetOatMethodOffsets (oat_class_data c) (class_method_idx (dex_method m))
    /\ oat_class m = Some c.
Proof.
  unfold oat_FindVirtualMethod.
  destruct oc as [c |]; [| destruct result; discriminate].
  destruct result as [r |]; [| discriminate].
  destruct descriptor as [desc |]; [| discriminate].
  destruct signature as [sig |]; [| discriminate].
  destruct (dex_FindVirtualMethod (dex_class c) desc sig) as [hit dm] eqn:E.
  destruct hit; simpl; [| discriminate].
  intros H. injection H as <-. exists c, desc, sig. simpl. auto 10.
Qed.

(** A method record [oat_FindMethod] hands out comes from one of the two
    finders. *)
Lemma oat_FindMethod_found (oc : option OatClass) (result : option OatMethod)
    (descriptor signature : option cstring) (m : OatMethod) :
  oat_FindMethod oc result descriptor signature = (true, Some m) ->
  oat_FindDirectMethod oc result descriptor signature = (true, Some m)
  \/ exists r1,
       oat_FindVirtualMethod oc r1 descriptor signature = (true, Some m).
Proof.
  unfold oat_FindMethod.
  destruct (oat_FindDirectMethod oc result descriptor signature)
    as [direct r1] eqn:Ed.
  destruct direct.
  - intros H. injection H as ->. left. reflexivity.
  - destruct (oat_FindVirtualMethod oc r1 descriptor signature)
      as [virt r2] eqn:Ev.
    destruct virt; [| discriminate].
    intros H. injection H as ->. right. exists r1. exact Ev.
Qed.

(** C1 (what the code does).  For a method record returned by
    [oat_FindMethod], [oat_FindDirectMethod] or [oat_FindVirtualMethod]
    whose compiled-code-offset record is absent,
    [oat_HasQuickCompiledCode] returns false, but
    [oat_GetQuickCompiledEntryPoint] does not return [NULL]: it reads
    [code_offset_] through the null [oat_method_offsets] pointer. *)
Theorem entry_point_of_uncompiled_method (oc : option OatClass)
    (result : option OatMethod) (descriptor signature : option cstring)
    (m : OatMethod) :
  oat_FindMethod oc result descriptor signature = (true, Some m)
  \/ oat_FindDirectMethod oc result descriptor signature = (true, Some m)
  \/ oat_FindVirtualMethod oc result descriptor signature = (true, Some m) ->
  oat_method_offsets m = None ->
  oat_HasQuickCompiledCode (Some m) = false
  /\ oat_GetQuickCompiledEntryPoint (Some m) = NullDereference
  /\ oat_GetQuickCompiledEntryPoint (Some m) <> Returns NULL.
Proof.
  intros _ Hnone. split; [| split].
  - unfold oat_HasQuickCompiledCode. rewrite Hnone. reflexivity.
  - apply entry_point_absent_offsets. exact Hnone.
  - rewrite (entry_point_absent_offsets m Hnone). discriminate.
Qed.

(** C8.  For a method record whose compiled-code-offset record is present
    with code offset [k] and whose back-references lead to image [f],
    [oat_GetQuickCompiledEntryPoint] returns exactly the pointer sum of
    [begin f] and [k], which is the number [begin f + k] whenever that lies
    inside the address space.  The sum is taken directly: for [k = 0] it is
    [begin f], where the offset resolver would give [NULL]. *)
Theorem oat_GetQuickCompiledEntryPoint_spec (m : OatMethod) (c : OatClass)
    (d : OatDexFile) (f : OatFile) (k : Z) :
  oat_method_offsets m = Some {| code_offset_ := k |} ->
  oat_class m = Some c ->
  oat_dex_file c = Some d ->
  oat_file d = Some f ->
  oat_GetQuickCompiledEntryPoint (Some m) = Returns (ptr_add (begin f) k)
  /\ (0 <= begin f -> 0 <= k -> begin f + k < 2 ^ pointer_bits ->
      oat_GetQuickCompiledEntryPoint (Some m) = Returns (begin f + k))
  /\ (k = 0 -> 0 < begin f < 2 ^ pointer_bits ->
      oat_GetQuickCompiledEntryPoint (Some m)
      <> Returns (oat_PointerFromFileOffset (Some f) k)).
Proof.
  intros Ho Hc Hd Hf.
  assert (E : oat_GetQuickCompiledEntryPoint (Some m)
              = Returns (ptr_add (begin f) k)).
  { unfold oat_GetQuickCompiledEntryPoint.
    rewrite Hc; simpl. rewrite Hd; simpl. rewrite Hf; simpl.
    rewrite Ho; reflexivity. }
  split; [exact E |]. split.
  - intros Hb Hk Hfit. rewrite E. f_equal.
    apply ptr_add_small; assumption.
  - intros -> Hb. rewrite E.
    rewrite ptr_add_small by (try rewrite Z.add_0_r; lia).
    unfold oat_PointerFromFileOffset, NULL. simpl.
    intros H. injection H as H. lia.
Qed.

End CodeLocator.

(** ** Strings: the comparison of [oat_FindDexFile] is an exact match *)
Section Strings.
Context {X : Externals}.

Lemma char_at_nonzero (s : cstring) (i : nat) :
  (i < strlen s)%nat -> char_at s i <> 0.
Proof.
  revert i. induction s as [| c s IH]; simpl; intros i Hi.
  - inversion Hi.
  - destruct (Z.eqb_spec c 0) as [Hc | Hc]; [inversion Hi |].
    destruct i as [| i]; unfold char_at; simpl; [exact Hc |].
    apply IH. apply PeanoNat.lt_S_n. exact Hi.
Qed.

Lemma strlen_le_length (s : cstring) : (strlen s <= List.length s)%nat.
Proof.
  induction s as [| c s IH]; simpl; [apply le_n |].
  destruct (c =? 0); [apply le_0_n | apply le_n_S; exact IH].
Qed.

Lemma strncmp_from_zero_iff (s1 s2 : nat -> Z) (n : nat) :
  forall i : nat,
    (forall k, (k < n)%nat -> s1 (i + k)%nat <> 0) ->
    (strncmp_from s1 s2 i n = 0
     <-> forall k, (k < n)%nat -> s1 (i + k)%nat = s2 (i + k)%nat).
Proof.
  induction n as [| n IH]; intros i Hnz; simpl.
  - split; [intros _ k Hk; inversion Hk | reflexivity].
  - assert (H0 : s1 i <> 0).
    { specialize (Hnz O (PeanoNat.Nat.lt_0_succ n)).
      rewrite PeanoNat.Nat.add_0_r in Hnz. exact Hnz. }
    destruct (Z.eqb_spec (s1 i) (s2 i)) as [He | Hne].
    + destruct (Z.eqb_spec (s1 i) 0) as [Hz | _]; [contradiction |].
      rewrite (IH (S i)).
      * split.
        -- intros H k Hk. destruct k as [| k].
           ++ rewrite PeanoNat.Nat.add_0_r. exact He.
           ++ rewrite <- PeanoNat.Nat.add_succ_comm.
              apply H. apply PeanoNat.lt_S_n. exact Hk.
        -- intros H k Hk. rewrite PeanoNat.Nat.add_succ_comm.
           apply H. apply (proj1 (PeanoNat.Nat.succ_lt_mono k n)). exact Hk.
      * intros k Hk. rewrite PeanoNat.Nat.add_succ_comm.
        apply Hnz. apply (proj1 (PeanoNat.Nat.succ_lt_mono k n)). exact Hk.
    + split.
      * intros H. exfalso. apply Hne. lia.
      * intros H. exfalso. apply Hne.
        specialize (H O (PeanoNat.Nat.lt_0_succ n)).
        rewrite PeanoNat.Nat.add_0_r in H. exact H.
Qed.

Lemma bytes_eqb_true_iff (a b : list Z) : bytes_eqb a b = true <-> a = b.
Proof.
  revert b. induction a as [| x a IH]; intros [| y b]; simpl;
    try (split; [discriminate | discriminate]); [tauto |].
  rewrite andb_true_iff, Z.eqb_eq, IH.
  split; [intros [-> ->]; reflexivity | intros H; injection H; auto].
Qed.

Lemma query_bytes_length (s : cstring) :
  List.length (query_bytes s) = strlen s.
Proof.
  unfold query_bytes. apply firstn_length_le. apply strlen_le_length.
Qed.

Lemma query_bytes_nth (s : cstring) (k : nat) :
  (k < strlen s)%nat -> nth k (query_bytes s) 0 = char_at s k.
Proof.
  unfold query_bytes, char_at. revert k.
  induction s as [| c s IH]; simpl; intros k Hk; [inversion Hk |].
  destruct (c =? 0); [inversion Hk |].
  destruct k as [| k]; simpl; [reflexivity |].
  apply IH. apply PeanoNat.lt_S_n. exact Hk.
Qed.

Lemma location_bytes_length (d : OatDexFileData) :
  List.length (location_bytes d) = Z.to_nat (length (location_string d)).
Proof. unfold location_bytes. rewrite length_map, length_seq. reflexivity. Qed.

Lemma location_bytes_nth (d : OatDexFileData) (k : nat) :
  (k < Z.to_nat (length (location_string d)))%nat ->
  nth k (location_bytes d) 0
  = load8 (ptr_add (content (location_string d)) (Z.of_nat k)).
Proof.
  intros Hk. unfold location_bytes.
  set (rd := fun j : nat =>
              load8 (ptr_add (content (location_string d)) (Z.of_nat j))).
  rewrite (nth_indep _ 0 (rd O)).
  - rewrite (map_nth rd). rewrite seq_nth by exact Hk. reflexivity.
  - rewrite length_map, length_seq. exact Hk.
Qed.

(** With equal lengths, [strncmp] over [strlen location] bytes returns 0
    exactly when the two byte sequences are the same. *)
Lemma strncmp_exact (location : cstring) (d : OatDexFileData) :
  Z.of_nat (strlen location) = length (location_string d) ->
  (strncmp (char_at location)
     (fun k => load8 (ptr_add (content (location_string d)) (Z.of_nat k)))
     (strlen location) = 0
   <-> query_bytes location = location_bytes d).
Proof.
  intros Hlen. unfold strncmp.
  assert (Hn : Z.to_nat (length (location_string d)) = strlen location).
  { rewrite <- Hlen. apply Nat2Z.id. }
  rewrite strncmp_from_zero_iff.
  - split.
    + intros H. apply (nth_ext _ _ 0 0).
      * rewrite query_bytes_length, location_bytes_length. symmetry; exact Hn.
      * intros k Hk. rewrite query_bytes_length in Hk.
        rewrite query_bytes_nth by exact Hk.
        rewrite location_bytes_nth by (rewrite Hn; exact Hk).
        apply (H k Hk).
    + intros H k Hk. simpl.
      rewrite <- query_bytes_nth by exact Hk.
      rewrite <- location_bytes_nth by (rewrite Hn; exact Hk).
      rewrite H. reflexivity.
  - intros k Hk. simpl. apply char_at_nonzero. exact Hk.
Qed.

Lemma location_matches_iff (location : cstring) (d : OatDexFileData) :
  location_matches location d = true <-> exact_match location d.
Proof.
  unfold location_matches, exact_match.
  rewrite andb_true_iff, Z.eqb_eq, bytes_eqb_true_iff. tauto.
Qed.

(** The two tests of the loop body together decide the exact match. *)
Lemma location_test (location : cstring) (d : OatDexFileData) :
  (if negb (Z.of_nat (strlen location) =? length (location_string d))
   then false
   else strncmp (char_at location)
          (fun k => load8 (ptr_add (content (location_string d)) (Z.of_nat k)))
          (strlen location) =? 0)
  = location_matches location d.
Proof.
  unfold location_matches.
  destruct (Z.eqb_spec (Z.of_nat (strlen location))
                       (length (location_string d))) as [Hlen | Hlen];
    simpl; [| reflexivity].
  destruct (bytes_eqb (query_bytes location) (location_bytes d)) eqn:Eb.
  - apply Z.eqb_eq. apply strncmp_exact; [exact Hlen |].
    apply bytes_eqb_true_iff. exact Eb.
  - apply Z.eqb_neq. intros H. apply strncmp_exact in H; [| exact Hlen].
    apply bytes_eqb_true_iff in H. congruence.
Qed.

(** A proper prefix or a proper suffix of a location is not an exact match. *)
Lemma proper_affix_no_match (location : cstring) (d : OatDexFileData)
    (rest : list Z) :
  rest <> [] ->
  location_bytes d = query_bytes location ++ rest
  \/ location_bytes d = rest ++ query_bytes location ->
  ~ exact_match location d.
Proof.
  intros Hrest Haffix [_ Heq].
  assert (Hl : List.length (location_bytes d)
               = (List.length (query_bytes location) + List.length rest)%nat).
  { destruct Haffix as [-> | ->]; rewrite length_app; lia. }
  rewrite Heq in Hl. destruct rest; [congruence | simpl in Hl; lia].
Qed.

End Strings.

(** ** The walk over the dex-file record stream *)
Section DirectoryWalker.
Context {X : Externals}.

Lemma forward_walk_length (n : nat) :
  forall (cursor : ptr) (f : OatFile) (l : list OatDexFileData),
    forward_walk n cursor f = Some l -> List.length l = n.
Proof.
  induction n as [| n IH]; simpl; intros cursor f l H.
  - injection H as <-. reflexivity.
  - destruct (ReadOatDexFileData cursor (end_ f) (header f)) as [[ok c'] d].
    destruct ok; [| discriminate].
    destruct (forward_walk n c' f) as [l' |] eqn:E; [| discriminate].
    injection H as <-. simpl. f_equal. apply (IH c' f l' E).
Qed.

Lemma walk_record_step (cursor : ptr) (f : OatFile) (k : nat) :
  walk_record cursor f k
  = let '(ok, cursor', d) :=
      ReadOatDexFileData cursor (end_ f) (header f) in
    if ok
    then match k with
         | O => Some d
         | S k' => walk_record cursor' f k'
         end
    else None.
Proof.
  unfold walk_record.
  change (forward_walk (S k) cursor f)
    with (let '(ok, cursor', d) :=
            ReadOatDexFileData cursor (end_ f) (header f) in
          if ok then option_map (cons d) (forward_walk k cursor' f)
          else None).
  destruct (ReadOatDexFileData cursor (end_ f) (header f)) as [[ok c'] d].
  destruct ok; [| reflexivity].
  destruct k as [| k']; [reflexivity |].
  destruct (forward_walk (S k') c' f) as [l' |]; reflexivity.
Qed.

Lemma forward_walk_nth (n : nat) :
  forall (cursor : ptr) (f : OatFile) (l : list OatDexFileData) (k : nat),
    forward_walk n cursor f = Some l ->
    (k < n)%nat ->
    walk_record cursor f k = nth_error l k.
Proof.
  induction n as [| n IH]; intros cursor f l k H Hk; [inversion Hk |].
  rewrite walk_record_step. simpl in H.
  destruct (ReadOatDexFileData cursor (end_ f) (header f)) as [[ok c'] d].
  destruct ok; [| discriminate].
  destruct (forward_walk n c' f) as [l' |] eqn:E; [| discriminate].
  injection H as <-.
  destruct k as [| k']; [reflexivity |]. simpl.
  apply (IH c' f l' k' E). apply PeanoNat.lt_S_n. exact Hk.
Qed.

(** One iteration of the loop of [oat_FindDexFile], with its two string
    tests read as the exact match. *)
Lemma oat_FindDexFile_loop_step (n : nat) (i : Z) (cursor : ptr)
    (f : OatFile) (r : OatDexFile) (location : cstring) :
  oat_FindDexFile_loop (S n) i cursor f r location
  = let '(ok, cursor', d) :=
      ReadOatDexFileData cursor (end_ f) (header f) in
    if ok
    then if location_matches location d
         then (true, record_at f i d)
         else oat_FindDexFile_loop n (i + 1) cursor' f (record_at f i d)
                location
    else (false, {| data := d; oat_file := oat_file r; index := index r |}).
Proof.
  simpl.
  destruct (ReadOatDexFileData cursor (end_ f) (header f)) as [[ok c'] d].
  destruct ok; simpl; [| reflexivity].
  rewrite <- location_test. fold (record_at f i d).
  destruct (negb (Z.of_nat (strlen location) =? length (location_string d)));
    [reflexivity |].
  destruct (strncmp (char_at location)
              (fun k => load8 (ptr_add (content (location_string d)) (Z.of_nat k)))
              (strlen location) =? 0); reflexivity.
Qed.

(** The loop reports [true] exactly for the outcome [found]. *)
Lemma oat_FindDexFile_loop_reported (n : nat) :
  forall (i : Z) (cursor : ptr) (f : OatFile) (r : OatDexFile)
         (location : cstring),
    fst (oat_FindDexFile_loop n i cursor f r location)
    = reported (spec_find_by_location_from n cursor f location).
Proof.
  induction n as [| n IH]; intros i cursor f r location; [reflexivity |].
  rewrite oat_FindDexFile_loop_step. simpl.
  destruct (ReadOatDexFileData cursor (end_ f) (header f)) as [[ok c'] d].
  destruct ok; [| reflexivity].
  destruct (location_matches location d); [reflexivity |]. apply IH.
Qed.

(** What a successful loop leaves in the result slot. *)
Lemma oat_FindDexFile_loop_found (n : nat) :
  forall (i : Z) (cursor : ptr) (f : OatFile) (r r' : OatDexFile)
         (location : cstring),
    oat_FindDexFile_loop n i cursor f r location = (true, r') ->
    exists k : nat,
      (k < n)%nat
      /\ r' = record_at f (i + Z.of_nat k) (data r')
      /\ walk_record cursor f k = Some (data r')
      /\ location_matches location (data r') = true
      /\ (forall j d, (j < k)%nat -> walk_record cursor f j = Some d ->
                      location_matches location d = false).
Proof.
  induction n as [| n IH]; intros i cursor f r r' location H;
    [discriminate |].
  rewrite oat_FindDexFile_loop_step in H.
  destruct (ReadOatDexFileData cursor (end_ f) (header f))
    as [[ok c'] d] eqn:ER.
  destruct ok; [| discriminate].
  destruct (location_matches location d) eqn:EM.
  - injection H as <-. exists O. simpl.
    rewrite Z.add_0_r, walk_record_step, ER.
    repeat split; auto using PeanoNat.Nat.lt_0_succ.
    intros j d' Hj. inversion Hj.
  - destruct (IH _ _ _ _ _ _ H) as (k & Hk & Hr & Hw & Hm & Hbefore).
    exists (S k). rewrite walk_record_step, ER.
    repeat split; auto.
    + apply (proj1 (PeanoNat.Nat.succ_lt_mono k n)). exact Hk.
    + rewrite Hr. simpl. f_equal. lia.
    + intros j d' Hj Hw'. rewrite walk_record_step, ER in Hw'.
      destruct j as [| j'].
      * injection Hw' as <-. exact EM.
      * apply (Hbefore j' d'); [apply PeanoNat.lt_S_n; exact Hj | exact Hw'].
Qed.

(** On a stream that decodes, the loop finds the first exact match. *)
Lemma oat_FindDexFile_loop_walk (n : nat) :
  forall (i : Z) (cursor : ptr) (f : OatFile) (r : OatDexFile)
         (location : cstring) (l : list OatDexFileData),
    forward_walk n cursor f = Some l ->
    match first_match location l with
    | Some k =>
        exists d, nth_error l k = Some d
                  /\ oat_FindDexFile_loop n i cursor f r location
                     = (true, record_at f (i + Z.of_nat k) d)
    | None =>
        fst (oat_FindDexFile_loop n i cursor f r location) = false
        /\ spec_find_by_location_from n cursor f location = not_found
    end.
Proof.
  induction n as [| n IH]; intros i cursor f r location l H.
  - injection H as <-. simpl. auto.
  - rewrite oat_FindDexFile_loop_step. simpl in H |- *.
    destruct (ReadOatDexFileData cursor (end_ f) (header f)) as [[ok c'] d].
    destruct ok; [| discriminate].
    destruct (forward_walk n c' f) as [l' |] eqn:E; [| discriminate].
    injection H as <-. simpl.
    destruct (location_matches location d).
    + exists d. rewrite Z.add_0_r. auto.
    + specialize (IH (i + 1) c' f (record_at f i d) location l' E).
      destruct (first_match location l') as [k |]; simpl.
      * destruct IH as (d' & Hn & Hl). exists d'. split; [exact Hn |].
        rewrite Hl. f_equal. f_equal. lia.
      * exact IH.
Qed.

Lemma first_match_None (location : cstring) (l : list OatDexFileData) :
  (forall d, In d l -> location_matches location d = false) ->
  first_match location l = None.
Proof.
  induction l as [| d l IH]; simpl; intros H; [reflexivity |].
  rewrite (H d (or_introl eq_refl)).
  rewrite IH; [reflexivity |]. intros d' Hd'. apply H. right. exact Hd'.
Qed.

Lemma first_match_Some (location : cstring) (l : list OatDexFileData) :
  forall (k : nat) (d : OatDexFileData),
    nth_error l k = Some d ->
    location_matches location d = true ->
    (forall j d', (j < k)%nat -> nth_error l j = Some d' ->
                  location_matches location d' = false) ->
    first_match location l = Some k.
Proof.
  induction l as [| x l IH]; intros k d Hn Hm Hbefore.
  - destruct k; discriminate.
  - destruct k as [| k]; simpl in *.
    + injection Hn as ->. rewrite Hm. reflexivity.
    + rewrite (Hbefore O x (PeanoNat.Nat.lt_0_succ k) eq_refl).
      rewrite (IH k d Hn Hm); [reflexivity |].
      intros j d' Hj Hn'. apply (Hbefore (S j) d'); [| exact Hn'].
      apply (proj1 (PeanoNat.Nat.succ_lt_mono j k)). exact Hj.
Qed.

(** The loop of [oat_GetOatDexFile] over [k + 1] records yields the record
    at position [k], or fails when the walk up to it does. *)
Lemma oat_GetOatDexFile_loop_spec (k : nat) :
  forall (cursor : ptr) (f : OatFile) (d0 : OatDexFileData),
    match walk_record cursor f k with
    | Some d => oat_GetOatDexFile_loop (S k) cursor f d0 = (true, d)
    | None => fst (oat_GetOatDexFile_loop (S k) cursor f d0) = false
    end.
Proof.
  induction k as [| k IH]; intros cursor f d0;
    rewrite walk_record_step; simpl;
    destruct (ReadOatDexFileData cursor (end_ f) (header f)) as [[ok c'] d];
    destruct ok; simpl; try reflexivity.
  apply (IH c' f d).
Qed.

(** A record that decodes and matches, within the count, makes the loop
    return true. *)
Lemma oat_FindDexFile_loop_finds (f : OatFile) (location : cstring) (n : nat) :
  forall (i : Z) (cursor : ptr) (r : OatDexFile) (k : nat)
         (d : OatDexFileData),
    (k < n)%nat ->
    walk_record cursor f k = Some d ->
    location_matches location d = true ->
    fst (oat_FindDexFile_loop n i cursor f r location) = true.
Proof.
  induction n as [| n IH]; intros i cursor r k d Hk Hw Hm; [lia |].
  rewrite oat_FindDexFile_loop_step. rewrite walk_record_step in Hw.
  destruct (ReadOatDexFileData cursor (end_ f) (header f)) as [[ok c'] d0].
  destruct ok; [| discriminate].
  destruct (location_matches location d0) eqn:E0; [reflexivity |].
  destruct k as [| k']; [congruence |].
  apply (IH _ _ _ k' d); [lia | exact Hw | exact Hm].
Qed.

End DirectoryWalker.

Section DirectoryLookups.
Context {X : Externals}.

(** [oat_GetOatDexFile] on an index inside the count: it hands out the
    record at that position of the stream, or fails when the walk does. *)
Lemma oat_GetOatDexFile_in_range (f : OatFile) (r : OatDexFile) (k : nat) :
  Z.of_nat k < NumDexFiles (header f) ->
  NumDexFiles (header f) < 2 ^ 32 ->
  match stream_record f k with
  | Some d =>
      oat_GetOatDexFile (Some f) (Some r) (Z.of_nat k)
      = (true, Some (record_at f (Z.of_nat k) d))
  | None => fst (oat_GetOatDexFile (Some f) (Some r) (Z.of_nat k)) = false
  end.
Proof.
  intros Hk Hrange. unfold oat_GetOatDexFile, stream_record.
  destruct (Z.ltb_spec (Z.of_nat k) (NumDexFiles (header f))) as [_ | Hge];
    [simpl | lia].
  rewrite wrap32_small by lia.
  replace (Z.to_nat (Z.of_nat k + 1)) with (S k) by lia.
  pose proof (oat_GetOatDexFile_loop_spec k
                (GetDexFileStoragePointer (header f)) f (data r)) as H.
  destruct (walk_record (GetDexFileStoragePointer (header f)) f k) as [d |].
  - rewrite H. reflexivity.
  - destruct (oat_GetOatDexFile_loop (S k)
                (GetDexFileStoragePointer (header f)) f (data r)) as [ok d'].
    simpl in H. subst ok. reflexivity.
Qed.

Lemma oat_GetOatDexFile_out_of_range (f : OatFile) (r : OatDexFile) (i : Z) :
  NumDexFiles (header f) <= i ->
  oat_GetOatDexFile (Some f) (Some r) i = (false, Some r).
Proof.
  intros Hi. unfold oat_GetOatDexFile.
  destruct (Z.ltb_spec i (NumDexFiles (header f))); [lia | reflexivity].
Qed.

(** C5.  For a well-formed image whose forward walk yields the records
    [l], [oat_GetOatDexFile] with an index [i] inside the count returns the
    record at position [i] of the walk (hence the same location string), and
    with any index at or past the count it fails, leaving the slot as it
    was. *)
Theorem oat_GetOatDexFile_agrees_with_walk (f : OatFile) (r : OatDexFile)
    (l : list OatDexFileData) (i : Z) :
  dex_file_stream f = Some l ->
  NumDexFiles (header f) < 2 ^ 32 ->
  (0 <= i < NumDexFiles (header f) ->
   exists d r',
     nth_error l (Z.to_nat i) = Some d
     /\ oat_GetOatDexFile (Some f) (Some r) i = (true, Some r')
     /\ r' = record_at f i d
     /\ location_string (data r') = location_string d)
  /\ (NumDexFiles (header f) <= i ->
      oat_GetOatDexFile (Some f) (Some r) i = (false, Some r)).
Proof.
  intros Hwalk Hrange. split.
  - intros Hi.
    assert (Hk : (Z.to_nat i < Z.to_nat (NumDexFiles (header f)))%nat) by lia.
    pose proof (forward_walk_nth _ _ _ _ _ Hwalk Hk) as Hnth.
    pose proof (forward_walk_length _ _ _ _ Hwalk) as Hlen.
    destruct (nth_error l (Z.to_nat i)) as [d |] eqn:En.
    + exists d, (record_at f i d).
      pose proof (oat_GetOatDexFile_in_range f r (Z.to_nat i)) as H.
      rewrite Z2Nat.id in H by lia.
      unfold stream_record in H. rewrite Hnth in H.
      repeat split; auto. apply H; lia.
    + apply nth_error_None in En. lia.
  - apply oat_GetOatDexFile_out_of_range.
Qed.

(** C6.  On a well-formed image with records [l]: when no record's location
    matches the query in length and content, [oat_FindDexFile] returns false
    having completed the search (not-found); otherwise it returns the first
    record that matches exactly, with its position as index.  A query that
    is a proper prefix or suffix of a location is not a match of it. *)
Theorem oat_FindDexFile_exact_match (f : OatFile) (r : OatDexFile)
    (location : cstring) (l : list OatDexFileData) :
  dex_file_stream f = Some l ->
  ((forall d, In d l -> ~ exact_match location d) ->
   fst (oat_FindDexFile (Some f) (Some r) (Some location)) = false
   /\ spec_find_by_location f location = not_found)
  /\ (forall (k : nat) (d : OatDexFileData),
        nth_error l k = Some d ->
        exact_match location d ->
        (forall j d', (j < k)%nat -> nth_error l j = Some d' ->
                      ~ exact_match location d') ->
        oat_FindDexFile (Some f) (Some r) (Some location)
        = (true, Some (record_at f (Z.of_nat k) d)))
  /\ (forall (d : OatDexFileData) (rest : list Z),
        rest <> [] ->
        location_bytes d = query_bytes location ++ rest
        \/ location_bytes d = rest ++ query_bytes location ->
        ~ exact_match location d).
Proof.
  intros Hwalk. unfold dex_file_stream in Hwalk.
  pose proof (oat_FindDexFile_loop_walk _ 0 _ _ r location _ Hwalk) as H.
  unfold oat_FindDexFile, spec_find_by_location.
  split; [| split].
  - intros Hnone.
    rewrite first_match_None in H.
    + destruct (oat_FindDexFile_loop _ 0 _ f r location) as [b r'].
      simpl in *. tauto.
    + intros d Hd. destruct (location_matches location d) eqn:E; auto.
      apply location_matches_iff in E. elim (Hnone d Hd E).
  - intros k d Hn Hm Hbefore.
    rewrite (first_match_Some location l k d Hn) in H.
    + destruct H as (d' & Hn' & ->). rewrite Hn in Hn'.
      injection Hn' as <-. reflexivity.
    + apply location_matches_iff. exact Hm.
    + intros j d' Hj Hn'. destruct (location_matches location d') eqn:E; auto.
      apply location_matches_iff in E. elim (Hbefore j d' Hj Hn' E).
  - intros d rest. apply proper_affix_no_match.
Qed.

(** What a successful [oat_FindDexFile] leaves in the result slot. *)
Lemma oat_FindDexFile_found (oat : option OatFile)
    (result : option OatDexFile) (location : option cstring)
    (r' : OatDexFile) :
  oat_FindDexFile oat result location = (true, Some r') ->
  exists (f : OatFile) (k : nat),
    oat = Some f
    /\ Z.of_nat k < NumDexFiles (header f)
    /\ r' = record_at f (Z.of_nat k) (data r')
    /\ stream_record f k = Some (data r').
Proof.
  unfold oat_FindDexFile.
  destruct oat as [f |]; [| discriminate].
  destruct result as [r |]; [| discriminate].
  destruct location as [loc |]; [| discriminate].
  destruct (oat_FindDexFile_loop _ 0 _ f r loc) as [b r1] eqn:E.
  intros H. injection H as -> ->.
  destruct (oat_FindDexFile_loop_found _ _ _ _ _ _ _ E)
    as (k & Hk & Hr & Hw & _).
  exists f, k. repeat split; auto; lia.
Qed.

(** What a successful [oat_GetOatDexFile] leaves in the result slot. *)
Lemma oat_GetOatDexFile_found (oat : option OatFile)
    (result : option OatDexFile) (i : Z) (r' : OatDexFile) :
  oat_GetOatDexFile oat result i = (true, Some r') ->
  exists f : OatFile,
    oat = Some f
    /\ i < NumDexFiles (header f)
    /\ r' = record_at f i (data r')
    /\ (0 <= i -> NumDexFiles (header f) < 2 ^ 32 ->
        stream_record f (Z.to_nat i) = Some (data r')).
Proof.
  unfold oat_GetOatDexFile.
  destruct oat as [f |]; [| discriminate].
  destruct result as [r |]; [| discriminate].
  destruct (Z.ltb_spec i (NumDexFiles (header f))) as [Hlt | Hge];
    [simpl | discriminate].
  destruct (oat_GetOatDexFile_loop _ _ f (data r)) as [ok d] eqn:E.
  destruct ok; simpl; [| discriminate].
  intros H. injection H as <-.
  exists f. repeat split; auto.
  intros Hi Hrange. simpl.
  rewrite wrap32_small in E by lia.
  replace (Z.to_nat (i + 1)) with (S (Z.to_nat i)) in E by lia.
  pose proof (oat_GetOatDexFile_loop_spec (Z.to_nat i)
                (GetDexFileStoragePointer (header f)) f (data r)) as H.
  unfold stream_record.
  destruct (walk_record _ f (Z.to_nat i)) as [d' |].
  - rewrite E in H. injection H as ->. reflexivity.
  - rewrite E in H. discriminate.
Qed.

End DirectoryLookups.

(** ** The class resolver *)
Section ClassResolver.
Context {X : Externals}.

(** On a dex-file record of image [f] the resolver returns, and its flag is
    what the outcome reports; on success the class record is determined by
    the dex-file record and the descriptor alone. *)
Lemma oat_FindClassInDex_reported (f : OatFile) (d : OatDexFile)
    (c : OatClass) (descriptor : cstring) :
  oat_file d = Some f ->
  exists c' : OatClass,
    oat_FindClassInDex (Some d) (Some c) (Some descriptor)
    = Returns (reported (spec_find_class f d descriptor), Some c')
    /\ (spec_find_class f d descriptor = found ->
        c' = {| dex_class :=
                  snd (dex_FindClass (dex_file_pointer (data d)) descriptor);
                oat_class_data :=
                  snd (DecodeOatClassData
                         (oat_PointerFromFileOffset (Some f)
                            (resolved_class_offset d descriptor))
                         (end_ f));
                oat_dex_file := Some d |}).
Proof.
  intros Hf.
  unfold oat_FindClassInDex, spec_find_class, resolved_class_offset,
    resolved_class_def_index, oat_class_def_pointer.
  destruct (dex_FindClass (dex_file_pointer (data d)) descriptor)
    as [hit dc].
  destruct hit; simpl.
  - rewrite Hf. simpl.
    destruct (DecodeOatClassData _ (end_ f)) as [ok cd].
    destruct ok; simpl; eexists; split; try reflexivity; discriminate.
  - eexists; split; [reflexivity | discriminate].
Qed.

Lemma oat_FindClassInDex_found (dexf : option OatDexFile)
    (clazz : option OatClass) (descriptor : option cstring) (c' : OatClass) :
  oat_FindClassInDex dexf clazz descriptor = Returns (true, Some c') ->
  oat_dex_file c' = dexf.
Proof.
  unfold oat_FindClassInDex.
  destruct dexf as [d |]; [| discriminate].
  destruct clazz as [c |]; [| discriminate].
  destruct descriptor as [desc |]; [| discriminate].
  destruct (dex_FindClass (dex_file_pointer (data d)) desc) as [hit dc].
  destruct hit; simpl; [| discriminate].
  destruct (oat_file d) as [f |]; simpl; [| discriminate].
  destruct (DecodeOatClassData _ (end_ f)) as [ok cd].
  destruct ok; simpl; [| discriminate].
  intros H. injection H as <-. reflexivity.
Qed.

(** The two variants compute the same pointer for a non-zero offset. *)
Lemma class_def_pointers_agree (f : OatFile) (d : OatDexFile) (idx : Z) :
  oat_file d = Some f ->
  class_def_offset_at d idx <> 0 ->
  Terse.oat_class_def_pointer f d idx = oat_class_def_pointer d idx.
Proof.
  intros Hf Hnz. unfold Terse.oat_class_def_pointer, oat_class_def_pointer.
  rewrite Hf. simpl.
  destruct (Z.eqb_spec (class_def_offset_at d idx) 0);
    [contradiction | reflexivity].
Qed.

(** A record that decodes has all the records before it decode too. *)
Lemma walk_record_prefix (f : OatFile) (k : nat) :
  forall (cursor : ptr) (d : OatDexFileData) (j : nat),
    walk_record cursor f k = Some d ->
    (j <= k)%nat ->
    exists d', walk_record cursor f j = Some d'.
Proof.
  induction k as [| k IH]; intros cursor d j H Hj.
  - replace j with O by lia. exists d. exact H.
  - rewrite walk_record_step in H. rewrite walk_record_step.
    destruct (ReadOatDexFileData cursor (end_ f) (header f)) as [[ok c'] d1].
    destruct ok; [| discriminate].
    destruct j as [| j]; [exists d1; reflexivity |].
    apply (IH c' d j H). lia.
Qed.

(** One call of [oat_GetOatDexFile] from the loop of [oat_FindClass]. *)
Lemma oat_GetOatDexFile_cases (f : OatFile) (r : OatDexFile) (k : nat) :
  NumDexFiles (header f) < 2 ^ 32 ->
  (exists d, Z.of_nat k < NumDexFiles (header f)
             /\ stream_record f k = Some d
             /\ oat_GetOatDexFile (Some f) (Some r) (Z.of_nat k)
                = (true, Some (record_at f (Z.of_nat k) d)))
  \/ (fst (oat_GetOatDexFile (Some f) (Some r) (Z.of_nat k)) = false
      /\ (Z.of_nat k < NumDexFiles (header f) -> stream_record f k = None)).
Proof.
  intros Hrange.
  destruct (Z.lt_ge_cases (Z.of_nat k) (NumDexFiles (header f))) as [Hk | Hk].
  - pose proof (oat_GetOatDexFile_in_range f r k Hk Hrange) as H.
    destruct (stream_record f k) as [d |].
    + left. exists d. auto.
    + right. auto.
  - right. rewrite oat_GetOatDexFile_out_of_range by exact Hk.
    split; [reflexivity | lia].
Qed.

Lemma oat_FindClass_loop_S (n : nat) (i : Z) (f : OatFile)
    (dslot : OatDexFile) (cslot : OatClass) (descriptor : cstring) :
  oat_FindClass_loop (S n) i f dslot cslot descriptor
  = let '(ok, r) := oat_GetOatDexFile (Some f) (Some dslot) i in
    let dslot' := slot_or dslot r in
    if negb ok then Returns (false, dslot', cslot)
    else
      x <- oat_FindClassInDex (Some dslot') (Some cslot) (Some descriptor) ;;
      let cslot' := slot_or cslot (snd x) in
      if fst x then Returns (true, dslot', cslot')
      else oat_FindClass_loop n (i + 1) f dslot' cslot' descriptor.
Proof. reflexivity. Qed.

(** The loop of [oat_FindClass] returns the first dex-file record whose
    class resolver succeeds; records on which the resolver returned false,
    for a missing class or for undecodable class metadata alike, are passed
    over. *)
Lemma oat_FindClass_loop_first (f : OatFile) (descriptor : cstring) (n : nat) :
  NumDexFiles (header f) < 2 ^ 32 ->
  forall (i k : nat) (dk : OatDexFileData) (dslot : OatDexFile)
         (cslot : OatClass),
    (i <= k < i + n)%nat ->
    Z.of_nat k < NumDexFiles (header f) ->
    stream_record f k = Some dk ->
    spec_find_class f (record_at f (Z.of_nat k) dk) descriptor = found ->
    (forall j dj, (i <= j < k)%nat -> stream_record f j = Some dj ->
       spec_find_class f (record_at f (Z.of_nat j) dj) descriptor <> found) ->
    exists c' : OatClass,
      oat_dex_file c' = Some (record_at f (Z.of_nat k) dk)
      /\ oat_FindClass_loop n (Z.of_nat i) f dslot cslot descriptor
         = Returns (true, record_at f (Z.of_nat k) dk, c').
Proof.
  intros Hrange.
  induction n as [| n IH]; intros i k dk dslot cslot Hik Hk Hdk Hfound Hbefore;
    [lia |].
  rewrite oat_FindClass_loop_S.
  destruct (oat_GetOatDexFile_cases f dslot i Hrange)
    as [(d & Hi & Hd & Hget) | [Hfail Hnone]].
  - rewrite Hget. loop_simpl.
    destruct (oat_FindClassInDex_reported f (record_at f (Z.of_nat i) d)
                cslot descriptor eq_refl) as (c' & Hc & _).
    rewrite Hc. loop_simpl.
    destruct (PeanoNat.Nat.eq_dec i k) as [-> | Hne].
    + rewrite Hdk in Hd. injection Hd as <-. rewrite Hfound. loop_simpl.
      exists c'. split; [| reflexivity].
      rewrite Hfound in Hc. apply (oat_FindClassInDex_found _ _ _ _ Hc).
    + assert (Hnf : spec_find_class f (record_at f (Z.of_nat i) d) descriptor
                    <> found) by (apply (Hbefore i d); [lia | exact Hd]).
      destruct (spec_find_class f (record_at f (Z.of_nat i) d) descriptor);
        [contradiction | |]; loop_simpl;
        replace (Z.of_nat i + 1) with (Z.of_nat (S i)) by lia;
        apply IH; auto; try lia;
        intros j dj Hj; apply Hbefore; lia.
  - exfalso.
    destruct (walk_record_prefix f k _ dk i Hdk) as [d' Hd']; [lia |].
    unfold stream_record in Hnone. rewrite Hd' in Hnone.
    assert (Hlt : Z.of_nat i < NumDexFiles (header f)) by lia.
    specialize (Hnone Hlt). discriminate.
Qed.

(** The loop of [oat_FindClass] returns false when no decodable record has
    the class resolver succeed, be it that the records are exhausted or
    that [oat_GetOatDexFile] failed on the way. *)
Lemma oat_FindClass_loop_none (f : OatFile) (descriptor : cstring) (n : nat) :
  NumDexFiles (header f) < 2 ^ 32 ->
  forall (i : nat) (dslot : OatDexFile) (cslot : OatClass),
    (forall k dk, (i <= k < i + n)%nat ->
       Z.of_nat k < NumDexFiles (header f) ->
       stream_record f k = Some dk ->
       spec_find_class f (record_at f (Z.of_nat k) dk) descriptor <> found) ->
    exists d' c',
      oat_FindClass_loop n (Z.of_nat i) f dslot cslot descriptor
      = Returns (false, d', c').
Proof.
  intros Hrange.
  induction n as [| n IH]; intros i dslot cslot Hnone.
  - simpl. eauto.
  - rewrite oat_FindClass_loop_S.
    destruct (oat_GetOatDexFile_cases f dslot i Hrange)
      as [(d & Hi & Hd & Hget) | [Hfail _]].
    + rewrite Hget. loop_simpl.
      destruct (oat_FindClassInDex_reported f (record_at f (Z.of_nat i) d)
                  cslot descriptor eq_refl) as (c' & Hc & _).
      rewrite Hc. loop_simpl.
      assert (Hnf : spec_find_class f (record_at f (Z.of_nat i) d) descriptor
                    <> found) by (apply (Hnone i d); [lia | lia | exact Hd]).
      destruct (spec_find_class f (record_at f (Z.of_nat i) d) descriptor);
        [contradiction | |]; loop_simpl;
        replace (Z.of_nat i + 1) with (Z.of_nat (S i)) by lia;
        apply IH; intros k dk Hk; apply Hnone; lia.
    + destruct (oat_GetOatDexFile (Some f) (Some dslot) (Z.of_nat i))
        as [ok r'].
      simpl in Hfail. subst ok. loop_simpl. eauto.
Qed.

(** The loop stops at the first dex-file record [oat_GetOatDexFile] cannot
    hand out. *)
Lemma oat_FindClass_loop_propagates (f : OatFile) (descriptor : cstring)
    (n : nat) (i : Z) (dslot : OatDexFile) (cslot : OatClass) :
  fst (oat_GetOatDexFile (Some f) (Some dslot) i) = false ->
  oat_FindClass_loop (S n) i f dslot cslot descriptor
  = Returns (false,
             slot_or dslot (snd (oat_GetOatDexFile (Some f) (Some dslot) i)),
             cslot).
Proof.
  intros H. rewrite oat_FindClass_loop_S.
  destruct (oat_GetOatDexFile (Some f) (Some dslot) i) as [ok r'].
  simpl in H. subst ok. reflexivity.
Qed.

(** The loop always returns, and returns true exactly when some decodable
    record within the count has the class resolver succeed. *)
Lemma oat_FindClass_loop_reported (f : OatFile) (descriptor : cstring)
    (n : nat) :
  NumDexFiles (header f) < 2 ^ 32 ->
  forall (i : nat) (dslot : OatDexFile) (cslot : OatClass),
    exists b d' c',
      oat_FindClass_loop n (Z.of_nat i) f dslot cslot descriptor
      = Returns (b, d', c')
      /\ (b = true <->
          exists k dk,
            (i <= k < i + n)%nat
            /\ Z.of_nat k < NumDexFiles (header f)
            /\ stream_record f k = Some dk
            /\ spec_find_class f (record_at f (Z.of_nat k) dk) descriptor
               = found).
Proof.
  intros Hrange.
  induction n as [| n IH]; intros i dslot cslot.
  - exists false, dslot, cslot. split; [reflexivity |].
    split; [discriminate | intros (k & _ & Hk & _); lia].
  - rewrite oat_FindClass_loop_S.
    destruct (oat_GetOatDexFile_cases f dslot i Hrange)
      as [(d & Hi & Hd & Hget) | [Hfail Hnone]].
    + rewrite Hget. loop_simpl.
      destruct (oat_FindClassInDex_reported f (record_at f (Z.of_nat i) d)
                  cslot descriptor eq_refl) as (c' & Hc & _).
      rewrite Hc. loop_simpl.
      destruct (spec_find_class f (record_at f (Z.of_nat i) d) descriptor)
        eqn:Es; loop_simpl.
      * exists true, (record_at f (Z.of_nat i) d), c'.
        split; [reflexivity |]. split; [| reflexivity].
        intros _. exists i, d. repeat split; auto; lia.
      * replace (Z.of_nat i + 1) with (Z.of_nat (S i)) by lia.
        destruct (IH (S i) (record_at f (Z.of_nat i) d) c')
          as (b & d' & c'' & Hl & Hiff).
        exists b, d', c''. split; [exact Hl |]. rewrite Hiff.
        split; intros (k & dk & Hk & Hlt & Hs & Hf).
        -- exists k, dk. repeat split; auto; lia.
        -- exists k, dk. repeat split; auto; try lia.
           destruct (PeanoNat.Nat.eq_dec k i) as [-> | Hne]; [| lia].
           rewrite Hd in Hs. injection Hs as <-. congruence.
      * replace (Z.of_nat i + 1) with (Z.of_nat (S i)) by lia.
        destruct (IH (S i) (record_at f (Z.of_nat i) d) c')
          as (b & d' & c'' & Hl & Hiff).
        exists b, d', c''. split; [exact Hl |]. rewrite Hiff.
        split; intros (k & dk & Hk & Hlt & Hs & Hf).
        -- exists k, dk. repeat split; auto; lia.
        -- exists k, dk. repeat split; auto; try lia.
           destruct (PeanoNat.Nat.eq_dec k i) as [-> | Hne]; [| lia].
           rewrite Hd in Hs. injection Hs as <-. congruence.
    + destruct (oat_GetOatDexFile (Some f) (Some dslot) (Z.of_nat i))
        as [ok r'].
      simpl in Hfail. subst ok. loop_simpl.
      exists false, (slot_or dslot r'), cslot. split; [reflexivity |].
      split; [discriminate |].
      intros (k & dk & Hk & Hlt & Hs & _). exfalso.
      destruct (walk_record_prefix f k _ dk i Hs) as [d' Hd']; [lia |].
      unfold stream_record in Hnone. rewrite Hd' in Hnone.
      assert (Hi : Z.of_nat i < NumDexFiles (header f)) by lia.
      specialize (Hnone Hi). discriminate.
Qed.

(** C3 (as the code has it).  [oat_FindClass] goes through the dex-file
    records by index from 0 up to the count and returns the first record on
    which the class resolver succeeds; records before it on which the
    resolver returned false are passed over, whether the class was missing
    there or its metadata could not be decoded.  A dex-file record that
    cannot be decoded ends the search with false at once, and so does
    running out of records. *)
Theorem oat_FindClass_search (f : OatFile) (rd : option OatDexFile)
    (rc : option OatClass) (descriptor : cstring)
    (oat_dex_ignored : OatDexFile) (oat_class_ignored : OatClass) :
  dex_file_count_ (header f) = NumDexFiles (header f) ->
  NumDexFiles (header f) < 2 ^ 32 ->
  (forall (k : nat) (dk : OatDexFileData),
     Z.of_nat k < NumDexFiles (header f) ->
     stream_record f k = Some dk ->
     spec_find_class f (record_at f (Z.of_nat k) dk) descriptor = found ->
     (forall j dj, (j < k)%nat -> stream_record f j = Some dj ->
        spec_find_class f (record_at f (Z.of_nat j) dj) descriptor = not_found
        \/ spec_find_class f (record_at f (Z.of_nat j) dj) descriptor
           = failure) ->
     exists c' : OatClass,
       oat_dex_file c' = Some (record_at f (Z.of_nat k) dk)
       /\ oat_FindClass (Some f) rd rc (Some descriptor)
            oat_dex_ignored oat_class_ignored
          = Returns (true,
                     option_map (fun _ => record_at f (Z.of_nat k) dk) rd,
                     option_map (fun _ => c') rc))
  /\ (forall k : nat,
        Z.of_nat k < NumDexFiles (header f) ->
        stream_record f k = None ->
        (forall j dj, (j < k)%nat -> stream_record f j = Some dj ->
           spec_find_class f (record_at f (Z.of_nat j) dj) descriptor
           <> found) ->
        exists d' c',
          oat_FindClass (Some f) rd rc (Some descriptor)
            oat_dex_ignored oat_class_ignored
          = Returns (false, d', c'))
  /\ ((forall k dk,
         Z.of_nat k < NumDexFiles (header f) ->
         stream_record f k = Some dk ->
         spec_find_class f (record_at f (Z.of_nat k) dk) descriptor
         <> found) ->
      exists d' c',
        oat_FindClass (Some f) rd rc (Some descriptor)
          oat_dex_ignored oat_class_ignored
        = Returns (false, d', c')).
Proof.
  intros Hcount Hrange.
  assert (Hnone :
    (forall k dk,
       Z.of_nat k < NumDexFiles (header f) ->
       stream_record f k = Some dk ->
       spec_find_class f (record_at f (Z.of_nat k) dk) descriptor <> found) ->
    exists d' c',
      oat_FindClass (Some f) rd rc (Some descriptor)
        oat_dex_ignored oat_class_ignored
      = Returns (false, d', c')).
  { intros H. unfold oat_FindClass.
    destruct (oat_FindClass_loop_none f descriptor
                (Z.to_nat (dex_file_count_ (header f))) Hrange O
                (slot_or oat_dex_ignored rd) (slot_or oat_class_ignored rc))
      as (d' & c' & Hl).
    - intros k dk _ Hk. apply H. exact Hk.
    - change (Z.of_nat 0) with 0 in Hl. rewrite Hl. simpl. eauto. }
  split; [| split].
  - intros k dk Hk Hdk Hfound Hbefore. unfold oat_FindClass.
    destruct (oat_FindClass_loop_first f descriptor
                (Z.to_nat (dex_file_count_ (header f))) Hrange O k dk
                (slot_or oat_dex_ignored rd) (slot_or oat_class_ignored rc))
      as (c' & Hback & Hl); auto.
    + rewrite Hcount. lia.
    + intros j dj Hj Hs.
      destruct (Hbefore j dj) as [E | E]; [lia | exact Hs | |];
        rewrite E; discriminate.
    + change (Z.of_nat 0) with 0 in Hl. rewrite Hl. simpl.
      exists c'. split; [exact Hback | reflexivity].
  - intros k Hk Hbad Hbefore. apply Hnone.
    intros k' dk' Hk' Hs'.
    destruct (PeanoNat.Nat.lt_ge_cases k' k) as [Hlt | Hge].
    + apply (Hbefore k' dk' Hlt Hs').
    + exfalso.
      destruct (walk_record_prefix f k' _ dk' k Hs' Hge) as [d Hd].
      unfold stream_record in Hbad. congruence.
  - exact Hnone.
Qed.

(** C4 (as the code has it).  For non-null arguments and a class whose
    class-definition offset is not zero, the terse [oat_FindClass] and
    [oat_FindClassInDex] decode the class metadata from the same pointer and
    return the same result. *)
Theorem class_resolver_variants_agree (d : OatDexFile) (c : OatClass)
    (descriptor : cstring) :
  resolved_class_offset d descriptor <> 0 ->
  Terse.oat_FindClass (Some d) (Some c) (Some descriptor)
  = oat_FindClassInDex (Some d) (Some c) (Some descriptor)
  /\ (forall f : OatFile,
        oat_file d = Some f ->
        Terse.oat_class_def_pointer f d
          (resolved_class_def_index d descriptor)
        = oat_class_def_pointer d (resolved_class_def_index d descriptor)).
Proof.
  intros Hnz. split.
  - unfold Terse.oat_FindClass, oat_FindClassInDex.
    unfold resolved_class_offset, resolved_class_def_index in Hnz.
    destruct (dex_FindClass (dex_file_pointer (data d)) descriptor)
      as [hit dc].
    destruct hit; [| reflexivity].
    cbv beta iota zeta delta [negb snd] in Hnz |- *.
    destruct (oat_file d) as [f |] eqn:Hf; [| reflexivity].
    cbv beta iota zeta delta [bind deref].
    rewrite (class_def_pointers_agree f d _ Hf Hnz). reflexivity.
  - intros f Hf. apply class_def_pointers_agree; assumption.
Qed.

End ClassResolver.

(** ** What the caller is told *)
Section Outcomes.
Context {X : Externals}.

(** C2 (as the code has it).  Every search operation tells its caller one
    of two things: true when it found its target, false otherwise.  A search
    that completed without a match and a search cut short by a decode
    failure are both reported as false. *)
Theorem search_results_are_two_valued (f : OatFile) (r d : OatDexFile)
    (c cls : OatClass) (m : OatMethod)
    (location descriptor signature : cstring) :
  oat_file d = Some f ->
  dex_file_count_ (header f) = NumDexFiles (header f) ->
  NumDexFiles (header f) < 2 ^ 32 ->
  fst (oat_FindDexFile (Some f) (Some r) (Some location))
  = reported (spec_find_by_location f location)
  /\ (exists c',
        oat_FindClassInDex (Some d) (Some c) (Some descriptor)
        = Returns (reported (spec_find_class f d descriptor), Some c'))
  /\ (exists b d' c',
        oat_FindClass (Some f) (Some r) (Some c) (Some descriptor) r c
        = Returns (b, Some d', Some c')
        /\ (b = true <->
            exists k dk,
              Z.of_nat k < NumDexFiles (header f)
              /\ stream_record f k = Some dk
              /\ spec_find_class f (record_at f (Z.of_nat k) dk) descriptor
                 = found))
  /\ fst (oat_FindDirectMethod (Some cls) (Some m) (Some descriptor)
            (Some signature))
     = fst (dex_FindDirectMethod (dex_class cls) descriptor signature)
  /\ fst (oat_FindVirtualMethod (Some cls) (Some m) (Some descriptor)
            (Some signature))
     = fst (dex_FindVirtualMethod (dex_class cls) descriptor signature)
  /\ reported not_found = reported failure.
Proof.
  intros Hf Hcount Hrange.
  split; [| split; [| split; [| split; [| split]]]].
  - unfold oat_FindDexFile, spec_find_by_location.
    rewrite <- (oat_FindDexFile_loop_reported _ 0 _ f r location).
    destruct (oat_FindDexFile_loop _ 0 _ f r location). reflexivity.
  - destruct (oat_FindClassInDex_reported f d c descriptor Hf) as (c' & H & _).
    exists c'. exact H.
  - unfold oat_FindClass.
    destruct (oat_FindClass_loop_reported f descriptor
                (Z.to_nat (dex_file_count_ (header f))) Hrange O r c)
      as (b & d' & c' & Hl & Hiff).
    change (Z.of_nat 0) with 0 in Hl. simpl slot_or. rewrite Hl. simpl.
    exists b, d', c'. split; [reflexivity |]. rewrite Hiff.
    split; intros (k & dk & H1 & H2); exists k, dk; repeat split;
      try tauto; try lia.
  - unfold oat_FindDirectMethod.
    destruct (dex_FindDirectMethod (dex_class cls) descriptor signature)
      as [hit dm]. destruct hit; reflexivity.
  - unfold oat_FindVirtualMethod.
    destruct (dex_FindVirtualMethod (dex_class cls) descriptor signature)
      as [hit dm]. destruct hit; reflexivity.
  - reflexivity.
Qed.

(** C10.  Every lookup sets the back-reference of the record it fills in
    to its own input.  Whenever one returns true, the record it filled in
    points back to that input: [oat_FindDexFile] and [oat_GetOatDexFile] set
    [oat_file] to the queried image context and [index] to the position of
    the record in the stream, [oat_FindClassInDex] sets [oat_dex_file] to the
    given dex-file record, the method finders set [oat_class] to the given
    class record.  And each of them does return true, overwriting whatever
    the slot held, when its target is there: a record inside the count that
    decodes, a record that matches the query, a class the parser finds and
    whose metadata decodes, a method the parser finds. *)
Theorem lookups_set_back_references :
  (forall oat result location r',
     oat_FindDexFile oat result location = (true, Some r') ->
     oat_file r' = oat
     /\ exists f k, oat = Some f
                    /\ index r' = Z.of_nat k
                    /\ stream_record f k = Some (data r'))
  /\ (forall oat result i r',
        oat_GetOatDexFile oat result i = (true, Some r') ->
        oat_file r' = oat
        /\ index r' = i
        /\ (forall f, oat = Some f -> 0 <= i ->
                      NumDexFiles (header f) < 2 ^ 32 ->
                      stream_record f (Z.to_nat i) = Some (data r')))
  /\ (forall dexf clazz descriptor c',
        oat_FindClassInDex dexf clazz descriptor = Returns (true, Some c') ->
        oat_dex_file c' = dexf)
  /\ (forall oc result descriptor signature m,
        oat_FindDirectMethod oc result descriptor signature = (true, Some m) ->
        oat_class m = oc)
  /\ (forall oc result descriptor signature m,
        oat_FindVirtualMethod oc result descriptor signature
        = (true, Some m) ->
        oat_class m = oc)
  /\ (forall (f : OatFile) (r : OatDexFile) (location : cstring) (k : nat)
             (d : OatDexFileData),
        Z.of_nat k < NumDexFiles (header f) ->
        stream_record f k = Some d ->
        exact_match location d ->
        exists r',
          oat_FindDexFile (Some f) (Some r) (Some location) = (true, Some r')
          /\ oat_file r' = Some f
          /\ 0 <= index r' <= Z.of_nat k)
  /\ (forall (f : OatFile) (r : OatDexFile) (k : nat) (d : OatDexFileData),
        NumDexFiles (header f) < 2 ^ 32 ->
        Z.of_nat k < NumDexFiles (header f) ->
        stream_record f k = Some d ->
        oat_GetOatDexFile (Some f) (Some r) (Z.of_nat k)
        = (true, Some {| data := d; oat_file := Some f;
                         index := Z.of_nat k |}))
  /\ (forall (f : OatFile) (d : OatDexFile) (c : OatClass)
             (descriptor : cstring),
        oat_file d = Some f ->
        spec_find_class f d descriptor = found ->
        exists c',
          oat_FindClassInDex (Some d) (Some c) (Some descriptor)
          = Returns (true, Some c')
          /\ oat_dex_file c' = Some d)
  /\ (forall (c : OatClass) (r : OatMethod) (descriptor signature : cstring),
        fst (dex_FindDirectMethod (dex_class c) descriptor signature) = true ->
        exists m,
          oat_FindDirectMethod (Some c) (Some r) (Some descriptor)
            (Some signature) = (true, Some m)
          /\ oat_class m = Some c)
  /\ (forall (c : OatClass) (r : OatMethod) (descriptor signature : cstring),
        fst (dex_FindVirtualMethod (dex_class c) descriptor signature)
        = true ->
        exists m,
          oat_FindVirtualMethod (Some c) (Some r) (Some descriptor)
            (Some signature) = (true, Some m)
          /\ oat_class m = Some c).
Proof.
  split; [| split; [| split; [| split; [| split; [| split; [| split;
    [| split; [| split]]]]]]]].
  - intros oat result location r' H.
    destruct (oat_FindDexFile_found _ _ _ _ H) as (f & k & -> & _ & Hr & Hs).
    split; [rewrite Hr; reflexivity |].
    exists f, k. repeat split; auto. rewrite Hr. reflexivity.
  - intros oat result i r' H.
    destruct (oat_GetOatDexFile_found _ _ _ _ H) as (f & -> & _ & Hr & Hs).
    split; [rewrite Hr; reflexivity |].
    split; [rewrite Hr; reflexivity |].
    intros f' Hf'. injection Hf' as <-. exact Hs.
  - intros dexf clazz descriptor c'. apply oat_FindClassInDex_found.
  - intros oc result descriptor signature m H.
    destruct (oat_FindDirectMethod_found _ _ _ _ _ H)
      as (c & _ & _ & -> & _ & _ & _ & _ & Hc). exact Hc.
  - intros oc result descriptor signature m H.
    destruct (oat_FindVirtualMethod_found _ _ _ _ _ H)
      as (c & _ & _ & -> & _ & _ & _ & _ & Hc). exact Hc.
  - intros f r location k d Hk Hs Hm.
    apply location_matches_iff in Hm.
    unfold oat_FindDexFile.
    destruct (oat_FindDexFile_loop (Z.to_nat (NumDexFiles (header f))) 0
                (GetDexFileStoragePointer (header f)) f r location)
      as [b r'] eqn:E.
    assert (Hb : b = true).
    { pose proof (oat_FindDexFile_loop_finds f location
                    (Z.to_nat (NumDexFiles (header f))) 0
                    (GetDexFileStoragePointer (header f)) r k d) as H.
      rewrite E in H. apply H; [lia | exact Hs | exact Hm]. }
    subst b. exists r'. split; [reflexivity |].
    destruct (oat_FindDexFile_loop_found _ _ _ _ _ _ _ E)
      as (k' & Hk' & Hr' & Hw' & Hm' & Hbefore).
    split; [rewrite Hr'; reflexivity |].
    assert (Hle : (k' <= k)%nat).
    { destruct (PeanoNat.Nat.le_gt_cases k' k) as [Hle | Hgt];
        [exact Hle |].
      specialize (Hbefore k d Hgt Hs). congruence. }
    rewrite Hr'. simpl. lia.
  - intros f r k d Hrange Hk Hs.
    pose proof (oat_GetOatDexFile_in_range f r k Hk Hrange) as H.
    rewrite Hs in H. exact H.
  - intros f d c descriptor Hf Hfound.
    destruct (oat_FindClassInDex_reported f d c descriptor Hf)
      as (c' & Hc & _).
    rewrite Hfound in Hc. exists c'. split; [exact Hc |].
    apply (oat_FindClassInDex_found _ _ _ _ Hc).
  - intros c r descriptor signature Hhit. unfold oat_FindDirectMethod.
    destruct (dex_FindDirectMethod (dex_class c) descriptor signature)
      as [hit dm].
    simpl in Hhit. subst hit. simpl. eexists. split; reflexivity.
  - intros c r descriptor signature Hhit. unfold oat_FindVirtualMethod.
    destruct (dex_FindVirtualMethod (dex_class c) descriptor signature)
      as [hit dm].
    simpl in Hhit. subst hit. simpl. eexists. split; reflexivity.
Qed.

End Outcomes.

(** ** More on the directory walk *)
Section WalkerBehaviour.
Context {X : Externals}.

Lemma query_bytes_no_nul (location : cstring) :
  ~ In 0 (query_bytes location).
Proof.
  unfold query_bytes.
  induction location as [| c s IH]; simpl; [tauto |].
  destruct (Z.eqb_spec c 0) as [Hc | Hc]; simpl; [tauto |].
  intros [H | H]; [congruence | exact (IH H)].
Qed.

Lemma strlen_app_nul (s t : cstring) : strlen (s ++ 0 :: t) = strlen s.
Proof.
  induction s as [| c s IH]; simpl; [reflexivity |].
  destruct (c =? 0); [reflexivity | f_equal; exact IH].
Qed.

Lemma query_bytes_app_nul (s t : cstring) :
  query_bytes (s ++ 0 :: t) = query_bytes s.
Proof.
  unfold query_bytes. rewrite strlen_app_nul, firstn_app.
  replace (strlen s - List.length s)%nat with O
    by (pose proof (strlen_le_length s); lia).
  simpl. apply app_nil_r.
Qed.

Lemma location_matches_app_nul (s t : cstring) (d : OatDexFileData) :
  location_matches (s ++ 0 :: t) d = location_matches s d.
Proof.
  unfold location_matches.
  rewrite strlen_app_nul, query_bytes_app_nul. reflexivity.
Qed.

Lemma oat_FindDexFile_loop_app_nul (s t : cstring) (f : OatFile) (n : nat) :
  forall (i : Z) (cursor : ptr) (r : OatDexFile),
    oat_FindDexFile_loop n i cursor f r (s ++ 0 :: t)
    = oat_FindDexFile_loop n i cursor f r s.
Proof.
  induction n as [| n IH]; intros i cursor r; [reflexivity |].
  rewrite !oat_FindDexFile_loop_step.
  destruct (ReadOatDexFileData cursor (end_ f) (header f)) as [[ok c'] d].
  destruct ok; [| reflexivity].
  rewrite location_matches_app_nul.
  destruct (location_matches s d); [reflexivity | apply IH].
Qed.

(** X5.  The query of [oat_FindDexFile] is read as a C string: whatever
    follows its first NUL byte has no influence on the lookup. *)
Theorem oat_FindDexFile_query_ends_at_nul (oat : option OatFile)
    (result : option OatDexFile) (s t : cstring) :
  oat_FindDexFile oat result (Some (s ++ 0 :: t))
  = oat_FindDexFile oat result (Some s).
Proof.
  unfold oat_FindDexFile.
  destruct oat as [f |]; [| reflexivity].
  destruct result as [r |]; [| reflexivity].
  rewrite oat_FindDexFile_loop_app_nul. reflexivity.
Qed.

(** X1.  Looking a record up by location and then by the index found gives
    the same record: the index [oat_FindDexFile] reports lies inside the
    count and [oat_GetOatDexFile] hands out that very record for it. *)
Theorem oat_FindDexFile_then_GetOatDexFile (f : OatFile)
    (r r2 r' : OatDexFile) (location : cstring) :
  NumDexFiles (header f) < 2 ^ 32 ->
  oat_FindDexFile (Some f) (Some r) (Some location) = (true, Some r') ->
  0 <= index r' < NumDexFiles (header f)
  /\ oat_GetOatDexFile (Some f) (Some r2) (index r') = (true, Some r').
Proof.
  intros Hrange H.
  destruct (oat_FindDexFile_found _ _ _ _ H) as (f0 & k & Hf & Hk & Hr & Hs).
  injection Hf as <-.
  assert (Hi : index r' = Z.of_nat k) by (rewrite Hr; reflexivity).
  rewrite Hi. split; [lia |].
  pose proof (oat_GetOatDexFile_in_range f r2 k Hk Hrange) as Hg.
  rewrite Hs in Hg. rewrite Hg, <- Hr. reflexivity.
Qed.

(** X2.  Looking a record up by index and then by its own location string
    finds a record with that same location at or before that index (the
    first one that carries it). *)
Theorem oat_GetOatDexFile_then_FindDexFile (f : OatFile)
    (r r2 r' : OatDexFile) (i : Z) (location : cstring) :
  NumDexFiles (header f) < 2 ^ 32 ->
  0 <= i ->
  oat_GetOatDexFile (Some f) (Some r) i = (true, Some r') ->
  exact_match location (data r') ->
  exists r'' : OatDexFile,
    oat_FindDexFile (Some f) (Some r2) (Some location) = (true, Some r'')
    /\ 0 <= index r'' <= i
    /\ location_bytes (data r'') = location_bytes (data r').
Proof.
  intros Hrange Hi Hget Hm.
  destruct (oat_GetOatDexFile_found _ _ _ _ Hget) as (f0 & Hf & Hlt & Hr & Hs).
  injection Hf as <-. specialize (Hs Hi Hrange).
  apply location_matches_iff in Hm.
  unfold oat_FindDexFile.
  destruct (oat_FindDexFile_loop (Z.to_nat (NumDexFiles (header f))) 0
              (GetDexFileStoragePointer (header f)) f r2 location)
    as [b r''] eqn:E.
  assert (Hb : b = true).
  { pose proof (oat_FindDexFile_loop_finds f location
                  (Z.to_nat (NumDexFiles (header f))) 0
                  (GetDexFileStoragePointer (header f)) r2 (Z.to_nat i)
                  (data r')) as H.
    rewrite E in H. apply H; [lia | exact Hs | exact Hm]. }
  subst b. exists r''. split; [reflexivity |].
  destruct (oat_FindDexFile_loop_found _ _ _ _ _ _ _ E)
    as (k & Hk & Hr'' & Hw & Hm'' & Hbefore).
  assert (Hle : (k <= Z.to_nat i)%nat).
  { destruct (PeanoNat.Nat.le_gt_cases k (Z.to_nat i)) as [Hle | Hgt];
      [exact Hle |].
    specialize (Hbefore (Z.to_nat i) (data r') Hgt Hs). congruence. }
  split.
  - rewrite Hr''. simpl. lia.
  - apply location_matches_iff in Hm. apply location_matches_iff in Hm''.
    destruct Hm as [_ <-]. destruct Hm'' as [_ <-]. reflexivity.
Qed.

(** X3.  A record that cannot be decoded invalidates the ones after it:
    when [oat_GetOatDexFile] succeeds for an index it succeeds for every
    smaller one, and when it fails for an index it fails for every larger
    one. *)
Theorem oat_GetOatDexFile_prefix_closed (f : OatFile) (r r2 : OatDexFile)
    (i j : Z) :
  NumDexFiles (header f) < 2 ^ 32 ->
  0 <= j <= i ->
  (fst (oat_GetOatDexFile (Some f) (Some r) i) = true ->
   fst (oat_GetOatDexFile (Some f) (Some r2) j) = true)
  /\ (fst (oat_GetOatDexFile (Some f) (Some r2) j) = false ->
      fst (oat_GetOatDexFile (Some f) (Some r) i) = false).
Proof.
  intros Hrange Hji.
  assert (Hup : fst (oat_GetOatDexFile (Some f) (Some r) i) = true ->
                fst (oat_GetOatDexFile (Some f) (Some r2) j) = true).
  { intros H.
    destruct (oat_GetOatDexFile (Some f) (Some r) i) as [b o] eqn:E.
    simpl in H. subst b.
    assert (exists r', o = Some r') as [r' ->].
    { unfold oat_GetOatDexFile in E.
      destruct (negb (i <? NumDexFiles (header f))); [discriminate |].
      destruct (oat_GetOatDexFile_loop _ _ f (data r)) as [ok d].
      destruct ok; simpl in E; [| discriminate].
      injection E as <-. eexists. reflexivity. }
    destruct (oat_GetOatDexFile_found _ _ _ _ E) as (f0 & Hf & Hlt & _ & Hs).
    injection Hf as <-.
    assert (Hi : 0 <= i) by lia. specialize (Hs Hi Hrange).
    unfold stream_record in Hs.
    destruct (walk_record_prefix f (Z.to_nat i) _ (data r') (Z.to_nat j) Hs)
      as [d' Hd']; [lia |].
    pose proof (oat_GetOatDexFile_in_range f r2 (Z.to_nat j)) as Hg.
    rewrite Z2Nat.id in Hg by lia.
    unfold stream_record in Hg. rewrite Hd' in Hg.
    rewrite Hg; [reflexivity | lia | exact Hrange]. }
  split; [exact Hup |].
  intros Hj.
  destruct (fst (oat_GetOatDexFile (Some f) (Some r) i)) eqn:E;
    [| reflexivity].
  rewrite (Hup eq_refl) in Hj. discriminate.
Qed.

(** X6.  Whenever [oat_FindDexFile] returns true, on any image, the record
    it filled in carries the query as its location string, byte for byte
    and with the same length; in particular that location holds no NUL
    byte. *)
Theorem oat_FindDexFile_result_matches (oat : option OatFile)
    (result : option OatDexFile) (location : option cstring)
    (r' : OatDexFile) :
  oat_FindDexFile oat result location = (true, Some r') ->
  exists loc : cstring,
    location = Some loc
    /\ exact_match loc (data r')
    /\ ~ In 0 (location_bytes (data r')).
Proof.
  unfold oat_FindDexFile.
  destruct oat as [f |]; [| discriminate].
  destruct result as [r |]; [| discriminate].
  destruct location as [loc |]; [| discriminate].
  destruct (oat_FindDexFile_loop _ 0 _ f r loc) as [b r1] eqn:E.
  intros H. injection H as -> ->.
  destruct (oat_FindDexFile_loop_found _ _ _ _ _ _ _ E)
    as (k & _ & _ & _ & Hm & _).
  apply location_matches_iff in Hm.
  exists loc. split; [reflexivity |]. split; [exact Hm |].
  destruct Hm as [_ <-]. apply query_bytes_no_nul.
Qed.

Lemma last_cons_indep {A : Type} (a : A) (l : list A) (x y : A) :
  last (a :: l) x = last (a :: l) y.
Proof.
  revert a. induction l as [| b l IH]; intros a; [reflexivity |].
  change (last (b :: l) x = last (b :: l) y). apply IH.
Qed.

(** A search that exhausts a decodable stream leaves the last record in
    the slot. *)
Lemma oat_FindDexFile_loop_exhausted (f : OatFile) (location : cstring)
    (n : nat) :
  forall (i : Z) (cursor : ptr) (r : OatDexFile) (l : list OatDexFileData),
    forward_walk n cursor f = Some l ->
    first_match location l = None ->
    oat_FindDexFile_loop n i cursor f r location
    = (false,
       match l with
       | [] => r
       | _ :: _ =>
           record_at f (i + Z.of_nat (List.length l) - 1) (last l (data r))
       end).
Proof.
  induction n as [| n IH]; intros i cursor r l Hw Hm.
  - injection Hw as <-. reflexivity.
  - rewrite oat_FindDexFile_loop_step. simpl in Hw.
    destruct (ReadOatDexFileData cursor (end_ f) (header f)) as [[ok c'] d].
    destruct ok; [| discriminate].
    destruct (forward_walk n c' f) as [l' |] eqn:E; [| discriminate].
    injection Hw as <-. simpl in Hm.
    destruct (location_matches location d); [discriminate |].
    destruct (first_match location l') eqn:Em; [discriminate |].
    rewrite (IH (i + 1) c' (record_at f i d) l' E Em).
    destruct l' as [| d' l''].
    + simpl. f_equal. f_equal. lia.
    + rewrite (last_cons_indep d' l'' (data (record_at f i d)) (data r)).
      change (last (d :: d' :: l'') (data r))
        with (last (d' :: l'') (data r)).
      f_equal. f_equal. simpl List.length. lia.
Qed.

(** X4.  A search that ends without a match does not preserve the output
    slot: on a well-formed image with at least one record, after
    [oat_FindDexFile] returned false for a location no record carries, the
    slot holds the last record of the stream with the last index.  Only on
    an image without records is the slot left as it was. *)
Theorem oat_FindDexFile_not_found_slot (f : OatFile) (r : OatDexFile)
    (location : cstring) (l : list OatDexFileData) :
  dex_file_stream f = Some l ->
  (forall d, In d l -> ~ exact_match location d) ->
  oat_FindDexFile (Some f) (Some r) (Some location)
  = (false,
     Some match l with
          | [] => r
          | _ :: _ =>
              record_at f (Z.of_nat (List.length l) - 1) (last l (data r))
          end).
Proof.
  intros Hw Hnone. unfold oat_FindDexFile. unfold dex_file_stream in Hw.
  rewrite (oat_FindDexFile_loop_exhausted f location _ 0 _ r l Hw).
  - destruct l; reflexivity.
  - apply first_match_None. intros d Hd.
    destruct (location_matches location d) eqn:E; [| reflexivity].
    apply location_matches_iff in E. elim (Hnone d Hd E).
Qed.

(** The walk reads the image context through [header] and [end_] only. *)
Lemma oat_FindDexFile_loop_reads (f f' : OatFile) (location : cstring)
    (n : nat) :
  end_ f = end_ f' ->
  header f = header f' ->
  forall (i : Z) (cursor : ptr) (r r' : OatDexFile),
    data r = data r' ->
    index r = index r' ->
    fst (oat_FindDexFile_loop n i cursor f r location)
    = fst (oat_FindDexFile_loop n i cursor f' r' location)
    /\ data (snd (oat_FindDexFile_loop n i cursor f r location))
       = data (snd (oat_FindDexFile_loop n i cursor f' r' location))
    /\ index (snd (oat_FindDexFile_loop n i cursor f r location))
       = index (snd (oat_FindDexFile_loop n i cursor f' r' location)).
Proof.
  intros He Hh.
  induction n as [| n IH]; intros i cursor r r' Hd Hi.
  - simpl. auto.
  - rewrite !oat_FindDexFile_loop_step. rewrite <- He, <- Hh.
    destruct (ReadOatDexFileData cursor (end_ f) (header f)) as [[ok c'] d].
    destruct ok; [| simpl; auto].
    destruct (location_matches location d); [simpl; auto |].
    apply IH; reflexivity.
Qed.

Lemma oat_GetOatDexFile_loop_reads (f f' : OatFile) (n : nat) :
  end_ f = end_ f' ->
  header f = header f' ->
  forall (cursor : ptr) (d : OatDexFileData),
    oat_GetOatDexFile_loop n cursor f d = oat_GetOatDexFile_loop n cursor f' d.
Proof.
  intros He Hh.
  induction n as [| n IH]; intros cursor d; [reflexivity |].
  simpl. rewrite <- He, <- Hh.
  destruct (ReadOatDexFileData cursor (end_ f) (header f)) as [[ok c'] d'].
  destruct ok; [apply IH | reflexivity].
Qed.

(** X7.  The two directory lookups consult the image context only through
    its [header] and [end_]: the fields [begin],
    [key_value_storage_start] and [dex_file_storage_start] that [oat_Setup]
    stored are not read (the stream start is recomputed from the header),
    so two contexts that agree on [header] and [end_] give the same flag,
    record data and index. *)
Theorem directory_lookups_read_header_and_end (f f' : OatFile)
    (r : OatDexFile) (location : cstring) (i : Z) :
  end_ f = end_ f' ->
  header f = header f' ->
  (fst (oat_FindDexFile (Some f) (Some r) (Some location))
   = fst (oat_FindDexFile (Some f') (Some r) (Some location))
   /\ option_map data (snd (oat_FindDexFile (Some f) (Some r) (Some location)))
      = option_map data
          (snd (oat_FindDexFile (Some f') (Some r) (Some location)))
   /\ option_map index
        (snd (oat_FindDexFile (Some f) (Some r) (Some location)))
      = option_map index
          (snd (oat_FindDexFile (Some f') (Some r) (Some location))))
  /\ (fst (oat_GetOatDexFile (Some f) (Some r) i)
      = fst (oat_GetOatDexFile (Some f') (Some r) i)
      /\ option_map data (snd (oat_GetOatDexFile (Some f) (Some r) i))
         = option_map data (snd (oat_GetOatDexFile (Some f') (Some r) i))
      /\ option_map index (snd (oat_GetOatDexFile (Some f) (Some r) i))
         = option_map index (snd (oat_GetOatDexFile (Some f') (Some r) i))).
Proof.
  intros He Hh. split.
  - unfold oat_FindDexFile. rewrite <- Hh.
    destruct (oat_FindDexFile_loop_reads f f' location
                (Z.to_nat (NumDexFiles (header f))) He Hh 0
                (GetDexFileStoragePointer (header f)) r r eq_refl eq_refl)
      as (H1 & H2 & H3).
    destruct (oat_FindDexFile_loop _ 0 _ f r location) as [b x].
    destruct (oat_FindDexFile_loop _ 0 _ f' r location) as [b' x'].
    simpl in *. repeat split; congruence.
  - unfold oat_GetOatDexFile. rewrite <- Hh.
    destruct (negb (i <? NumDexFiles (header f))); [auto |].
    rewrite <- (oat_GetOatDexFile_loop_reads f f' _ He Hh).
    destruct (oat_GetOatDexFile_loop _ _ f (data r)) as [ok d].
    destruct ok; simpl; auto.
Qed.

End WalkerBehaviour.

(** ** More on the class resolvers *)
Section ClassResolverBehaviour.
Context {X : Externals}.

(** X11.  The class resolvers follow the record's image back-reference
    without a check: either variant dereferences a null pointer exactly when
    that back-reference is null and the DEX parser has the class.  A record
    handed out by [oat_GetOatDexFile] or [oat_FindDexFile] never makes them
    do so. *)
Theorem class_resolvers_fault_iff (d : OatDexFile) (c : OatClass)
    (descriptor : cstring) :
  (oat_FindClassInDex (Some d) (Some c) (Some descriptor) = NullDereference
   <-> oat_file d = None
       /\ fst (dex_FindClass (dex_file_pointer (data d)) descriptor) = true)
  /\ (Terse.oat_FindClass (Some d) (Some c) (Some descriptor)
      = NullDereference
      <-> oat_file d = None
          /\ fst (dex_FindClass (dex_file_pointer (data d)) descriptor)
             = true)
  /\ (forall oat r i,
        oat_GetOatDexFile oat r i = (true, Some d) ->
        oat_FindClassInDex (Some d) (Some c) (Some descriptor)
        <> NullDereference)
  /\ (forall oat r location,
        oat_FindDexFile oat r location = (true, Some d) ->
        oat_FindClassInDex (Some d) (Some c) (Some descriptor)
        <> NullDereference).
Proof.
  assert (Hrich :
    oat_FindClassInDex (Some d) (Some c) (Some descriptor) = NullDereference
    <-> oat_file d = None
        /\ fst (dex_FindClass (dex_file_pointer (data d)) descriptor) = true).
  { unfold oat_FindClassInDex.
    destruct (dex_FindClass (dex_file_pointer (data d)) descriptor)
      as [hit dc].
    destruct hit; simpl.
    - destruct (oat_file d) as [f |]; simpl.
      + destruct (DecodeOatClassData _ (end_ f)) as [ok cd].
        destruct ok; simpl; split; try discriminate;
          intros [H _]; discriminate.
      + tauto.
    - split; [discriminate | intros [_ H]; discriminate]. }
  split; [exact Hrich |]. split; [| split].
  - unfold Terse.oat_FindClass.
    destruct (dex_FindClass (dex_file_pointer (data d)) descriptor)
      as [hit dc].
    destruct hit; simpl.
    + destruct (oat_file d) as [f |]; simpl.
      * destruct (DecodeOatClassData _ (end_ f)) as [ok cd].
        destruct ok; simpl; split; try discriminate;
          intros [H _]; discriminate.
      * tauto.
    + split; [discriminate | intros [_ H]; discriminate].
  - intros oat r i H Hfault. apply Hrich in Hfault.
    destruct (oat_GetOatDexFile_found _ _ _ _ H) as (f & _ & _ & Hr & _).
    rewrite Hr in Hfault. destruct Hfault as [Hnone _]. discriminate.
  - intros oat r location H Hfault. apply Hrich in Hfault.
    destruct (oat_FindDexFile_found _ _ _ _ H) as (f & k & _ & _ & Hr & _).
    rewrite Hr in Hfault. destruct Hfault as [Hnone _]. discriminate.
Qed.

(** What a successful loop of [oat_FindClass] leaves in the two slots. *)
Lemma oat_FindClass_loop_found (f : OatFile) (descriptor : cstring) (n : nat) :
  NumDexFiles (header f) < 2 ^ 32 ->
  forall (i : nat) (dslot : OatDexFile) (cslot : OatClass)
         (d' : OatDexFile) (c' : OatClass),
    oat_FindClass_loop n (Z.of_nat i) f dslot cslot descriptor
    = Returns (true, d', c') ->
    exists (k : nat) (dk : OatDexFileData) (cs : OatClass),
      (i <= k < i + n)%nat
      /\ Z.of_nat k < NumDexFiles (header f)
      /\ stream_record f k = Some dk
      /\ d' = record_at f (Z.of_nat k) dk
      /\ oat_FindClassInDex (Some d') (Some cs) (Some descriptor)
         = Returns (true, Some c').
Proof.
  intros Hrange.
  induction n as [| n IH]; intros i dslot cslot d' c' H; [discriminate |].
  rewrite oat_FindClass_loop_S in H.
  destruct (oat_GetOatDexFile_cases f dslot i Hrange)
    as [(d & Hi & Hd & Hget) | [Hfail _]].
  - rewrite Hget in H. loop_simpl_in H.
    destruct (oat_FindClassInDex_reported f (record_at f (Z.of_nat i) d)
                cslot descriptor eq_refl) as (c1 & Hc & _).
    rewrite Hc in H. loop_simpl_in H.
    destruct (spec_find_class f (record_at f (Z.of_nat i) d) descriptor)
      eqn:Es; loop_simpl_in H.
    + injection H as <- <-. exists i, d, cslot.
      repeat split; auto; try lia.
    + replace (Z.of_nat i + 1) with (Z.of_nat (S i)) in H by lia.
      destruct (IH _ _ _ _ _ H) as (k & dk & cs & Hk & Hrest).
      exists k, dk, cs. split; [lia | exact Hrest].
    + replace (Z.of_nat i + 1) with (Z.of_nat (S i)) in H by lia.
      destruct (IH _ _ _ _ _ H) as (k & dk & cs & Hk & Hrest).
      exists k, dk, cs. split; [lia | exact Hrest].
  - destruct (oat_GetOatDexFile (Some f) (Some dslot) (Z.of_nat i))
      as [ok r'].
    simpl in Hfail. subst ok. loop_simpl_in H. discriminate.
Qed.

(** On success the class record does not depend on what the slot held. *)
Lemma oat_FindClassInDex_slot_free (d : OatDexFile) (c1 c2 : OatClass)
    (descriptor : cstring) (c' : OatClass) :
  oat_FindClassInDex (Some d) (Some c1) (Some descriptor)
  = Returns (true, Some c') ->
  oat_FindClassInDex (Some d) (Some c2) (Some descriptor)
  = Returns (true, Some c').
Proof.
  unfold oat_FindClassInDex.
  destruct (dex_FindClass (dex_file_pointer (data d)) descriptor)
    as [hit dc].
  destruct hit; simpl; [| discriminate].
  destruct (oat_file d) as [f |]; simpl; [| discriminate].
  destruct (DecodeOatClassData _ (end_ f)) as [ok cd].
  destruct ok; simpl; [| discriminate].
  intros H. injection H as <-. reflexivity.
Qed.

(** X13.  What [oat_FindClass] hands back on success is what the two-step
    lookup gives: the dex-file record is the one [oat_GetOatDexFile] returns
    for its index, an index inside both counts, with the image as
    back-reference; the class record is the one [oat_FindClassInDex] returns
    on that record, and points back to it. *)
Theorem oat_FindClass_result (f : OatFile) (r r2 : OatDexFile)
    (c c2 : OatClass) (descriptor : cstring)
    (oat_dex_ignored : OatDexFile) (oat_class_ignored : OatClass)
    (d' : OatDexFile) (c' : OatClass) :
  NumDexFiles (header f) < 2 ^ 32 ->
  oat_FindClass (Some f) (Some r) (Some c) (Some descriptor)
    oat_dex_ignored oat_class_ignored
  = Returns (true, Some d', Some c') ->
  oat_file d' = Some f
  /\ 0 <= index d' < NumDexFiles (header f)
  /\ index d' < dex_file_count_ (header f)
  /\ oat_dex_file c' = Some d'
  /\ oat_GetOatDexFile (Some f) (Some r2) (index d') = (true, Some d')
  /\ oat_FindClassInDex (Some d') (Some c2) (Some descriptor)
     = Returns (true, Some c').
Proof.
  intros Hrange H. unfold oat_FindClass in H. simpl slot_or in H.
  destruct (oat_FindClass_loop (Z.to_nat (dex_file_count_ (header f))) 0 f
              r c descriptor) as [[[b d1] c1] |] eqn:E; [| discriminate].
  simpl in H. injection H as -> -> ->.
  change 0 with (Z.of_nat 0) in E.
  destruct (oat_FindClass_loop_found f descriptor _ Hrange _ _ _ _ _ E)
    as (k & dk & cs & Hk & Hlt & Hs & Hd & Hc).
  subst d'.
  split; [reflexivity |].
  split; [simpl; lia |].
  split; [simpl; lia |].
  split; [apply (oat_FindClassInDex_found _ _ _ _ Hc) |].
  split.
  - pose proof (oat_GetOatDexFile_in_range f r2 k Hlt Hrange) as Hg.
    rewrite Hs in Hg. exact Hg.
  - apply (oat_FindClassInDex_slot_free _ cs). exact Hc.
Qed.

(** X12.  [oat_FindClass] may be given null result pointers: the flag it
    returns is the one it returns with real slots, whatever the local
    fall-back slots hold, and nothing is handed back through a null
    pointer. *)
Theorem oat_FindClass_null_slots (f : OatFile) (r : OatDexFile)
    (c : OatClass) (descriptor : cstring)
    (di di' : OatDexFile) (ci ci' : OatClass) :
  NumDexFiles (header f) < 2 ^ 32 ->
  exists (b : bool) (d' : OatDexFile) (c' : OatClass),
    oat_FindClass (Some f) (Some r) (Some c) (Some descriptor) di ci
    = Returns (b, Some d', Some c')
    /\ oat_FindClass (Some f) None None (Some descriptor) di' ci'
       = Returns (b, None, None).
Proof.
  intros Hrange. unfold oat_FindClass. simpl slot_or.
  destruct (oat_FindClass_loop_reported f descriptor
              (Z.to_nat (dex_file_count_ (header f))) Hrange O r c)
    as (b1 & d1 & c1 & H1 & Hiff1).
  destruct (oat_FindClass_loop_reported f descriptor
              (Z.to_nat (dex_file_count_ (header f))) Hrange O di' ci')
    as (b2 & d2 & c2 & H2 & Hiff2).
  change (Z.of_nat 0) with 0 in H1, H2.
  rewrite H1, H2. simpl.
  exists b1, d1, c1. split; [reflexivity |].
  assert (Hb : b2 = b1).
  { destruct b1, b2; try reflexivity.
    - apply (proj2 Hiff2). apply (proj1 Hiff1). reflexivity.
    - symmetry. apply (proj2 Hiff1). apply (proj1 Hiff2). reflexivity. }
  rewrite Hb. reflexivity.
Qed.

(** X9.  An image whose header counts no dex-file record: every lookup
    returns false and leaves the slots as they were. *)
Theorem lookups_on_empty_image (f : OatFile) (r : OatDexFile)
    (rd : option OatDexFile) (rc : option OatClass)
    (location descriptor : cstring) (i : Z)
    (oat_dex_ignored : OatDexFile) (oat_class_ignored : OatClass) :
  NumDexFiles (header f) <= 0 ->
  dex_file_count_ (header f) <= 0 ->
  0 <= i ->
  oat_FindDexFile (Some f) (Some r) (Some location) = (false, Some r)
  /\ oat_GetOatDexFile (Some f) (Some r) i = (false, Some r)
  /\ oat_FindClass (Some f) rd rc (Some descriptor)
       oat_dex_ignored oat_class_ignored
     = Returns (false, rd, rc).
Proof.
  intros HN Hc Hi. split; [| split].
  - unfold oat_FindDexFile.
    replace (Z.to_nat (NumDexFiles (header f))) with O by lia. reflexivity.
  - apply oat_GetOatDexFile_out_of_range. lia.
  - unfold oat_FindClass.
    replace (Z.to_nat (dex_file_count_ (header f))) with O by lia.
    destruct rd, rc; reflexivity.
Qed.

Section Indexed.
Variable dex_GetClass : ptr -> Z -> bool * DexClass.

Lemma resolved_class_def_index_nonneg (d : OatDexFile) (descriptor : cstring) :
  0 <= resolved_class_def_index d descriptor.
Proof.
  unfold resolved_class_def_index, wrap32.
  apply Z.mod_pos_bound. reflexivity.
Qed.

(** X14.  The index-addressed resolver agrees with the descriptor-addressed
    one: when the DEX parser finds a class by descriptor, its definition
    index fits the 16-bit parameter and the parser returns the same class
    for that index, [oat_GetClass] on the index returns exactly what
    [oat_FindClassInDex] returns on the descriptor (same decode pointer,
    same class record, same flag). *)
Theorem oat_GetClass_agrees_with_FindClassInDex (d : OatDexFile)
    (c : OatClass) (descriptor : cstring) :
  fst (dex_FindClass (dex_file_pointer (data d)) descriptor) = true ->
  resolved_class_def_index d descriptor < 2 ^ 16 ->
  dex_GetClass (dex_file_pointer (data d))
    (resolved_class_def_index d descriptor)
  = dex_FindClass (dex_file_pointer (data d)) descriptor ->
  oat_GetClass dex_GetClass (Some d) (Some c)
    (resolved_class_def_index d descriptor)
  = oat_FindClassInDex (Some d) (Some c) (Some descriptor).
Proof.
  intros Hhit Hsmall Hsame.
  pose proof (resolved_class_def_index_nonneg d descriptor) as Hpos.
  unfold oat_GetClass, oat_FindClassInDex, oat_class_def_pointer.
  assert (Hw : wrap16 (resolved_class_def_index d descriptor)
               = resolved_class_def_index d descriptor).
  { unfold wrap16. apply Z.mod_small. lia. }
  rewrite Hw, Hsame.
  unfold resolved_class_def_index.
  destruct (dex_FindClass (dex_file_pointer (data d)) descriptor)
    as [hit dc].
  simpl in Hhit. subst hit. reflexivity.
Qed.

(** X15.  [oat_GetClass] on success has taken the class from the DEX parser
    for the given index (as a 16-bit value) and set the back-reference to
    the given dex-file record; like the other resolvers it dereferences a
    null pointer exactly when the record's image back-reference is null and
    the parser has the class. *)
Theorem oat_GetClass_result (dexf : option OatDexFile)
    (clazz : option OatClass) (class_def_index : Z) :
  (forall c' : OatClass,
     oat_GetClass dex_GetClass dexf clazz class_def_index
     = Returns (true, Some c') ->
     oat_dex_file c' = dexf
     /\ exists d f,
          dexf = Some d /\ oat_file d = Some f
          /\ dex_GetClass (dex_file_pointer (data d)) (wrap16 class_def_index)
             = (true, dex_class c')
          /\ DecodeOatClassData
               (oat_PointerFromFileOffset (Some f)
                  (class_def_offset_at d (wrap16 class_def_index)))
               (end_ f)
             = (true, oat_class_data c'))
  /\ (oat_GetClass dex_GetClass dexf clazz class_def_index = NullDereference
      <-> exists d c,
            dexf = Some d /\ clazz = Some c /\ oat_file d = None
            /\ fst (dex_GetClass (dex_file_pointer (data d))
                      (wrap16 class_def_index)) = true).
Proof.
  unfold oat_GetClass. split.
  - intros c'.
    destruct dexf as [d |]; [| discriminate].
    destruct clazz as [c |]; [| discriminate].
    destruct (dex_GetClass (dex_file_pointer (data d))
                (wrap16 class_def_index)) as [ok dc] eqn:Eg.
    destruct ok; simpl; [| discriminate].
    destruct (oat_file d) as [f |] eqn:Hf; simpl; [| discriminate].
    destruct (DecodeOatClassData _ (end_ f)) as [ok' cd] eqn:Ed.
    destruct ok'; simpl; [| discriminate].
    intros H. injection H as <-. simpl. split; [reflexivity |].
    exists d, f. repeat split; auto.
  - destruct dexf as [d |];
      [| split; [discriminate | intros (d & c & H & _); discriminate]].
    destruct clazz as [c |];
      [| split; [discriminate | intros (d0 & c & _ & H & _); discriminate]].
    destruct (dex_GetClass (dex_file_pointer (data d))
                (wrap16 class_def_index)) as [ok dc] eqn:Eg.
    destruct ok; simpl.
    + destruct (oat_file d) as [f |] eqn:Hf; simpl.
      * destruct (DecodeOatClassData _ (end_ f)) as [ok' cd].
        destruct ok'; simpl; split; try discriminate;
          intros (d0 & c0 & Hd & _ & Hn & _);
          injection Hd as <-; congruence.
      * split; [| reflexivity]. intros _. exists d, c.
        rewrite Eg. auto.
    + split; [discriminate |].
      intros (d0 & c0 & Hd & _ & _ & Hh). injection Hd as <-.
      rewrite Eg in Hh. discriminate.
Qed.

End Indexed.

End ClassResolverBehaviour.

(** ** More on the method resolver and the code locator *)
Section MethodBehaviour.
Context {X : Externals}.

Lemma oat_GetQuickCompiledEntryPoint_chain (m : OatMethod) (c : OatClass)
    (d : OatDexFile) (f : OatFile) (k : Z) :
  oat_method_offsets m = Some {| code_offset_ := k |} ->
  oat_class m = Some c ->
  oat_dex_file c = Some d ->
  oat_file d = Some f ->
  oat_GetQuickCompiledEntryPoint (Some m) = Returns (ptr_add (begin f) k).
Proof.
  intros Ho Hc Hd Hf. unfold oat_GetQuickCompiledEntryPoint.
  rewrite Hc; simpl. rewrite Hd; simpl. rewrite Hf; simpl.
  rewrite Ho; reflexivity.
Qed.

Lemma oat_FindMethod_record (oc : option OatClass)
    (result : option OatMethod) (descriptor signature : option cstring)
    (m : OatMethod) :
  oat_FindMethod oc result descriptor signature = (true, Some m) ->
  exists c : OatClass,
    oc = Some c
    /\ oat_class m = Some c
    /\ oat_method_offsets m
       = GetOatMethodOffsets (oat_class_data c)
           (class_method_idx (dex_method m)).
Proof.
  intros H. destruct (oat_FindMethod_found _ _ _ _ _ H) as [Hd | [r1 Hv]].
  - destruct (oat_FindDirectMethod_found _ _ _ _ _ Hd)
      as (c & _ & _ & Hc & _ & _ & _ & Ho & Hb).
    exists c. auto.
  - destruct (oat_FindVirtualMethod_found _ _ _ _ _ Hv)
      as (c & _ & _ & Hc & _ & _ & _ & Ho & Hb).
    exists c. auto.
Qed.

(** X16.  [oat_FindMethod] tries the direct-method finder first and
    returns its result when that succeeds, without consulting the
    virtual-method finder; otherwise it returns what the virtual-method
    finder returns on the slot as the direct attempt left it.  A record it
    hands out points back to the given class and carries the compiled-code
    offsets looked up for the found method's index.  With a null argument
    it returns false and leaves the slot alone. *)
Theorem oat_FindMethod_direct_then_virtual (oc : option OatClass)
    (result : option OatMethod) (descriptor signature : option cstring) :
  (fst (oat_FindDirectMethod oc result descriptor signature) = true ->
   oat_FindMethod oc result descriptor signature
   = oat_FindDirectMethod oc result descriptor signature)
  /\ (fst (oat_FindDirectMethod oc result descriptor signature) = false ->
      oat_FindMethod oc result descriptor signature
      = oat_FindVirtualMethod oc
          (snd (oat_FindDirectMethod oc result descriptor signature))
          descriptor signature)
  /\ (forall m : OatMethod,
        oat_FindMethod oc result descriptor signature = (true, Some m) ->
        exists c : OatClass,
          oc = Some c
          /\ oat_class m = Some c
          /\ oat_method_offsets m
             = GetOatMethodOffsets (oat_class_data c)
                 (class_method_idx (dex_method m)))
  /\ (oc = None \/ result = None \/ descriptor = None \/ signature = None ->
      oat_FindMethod oc result descriptor signature = (false, result)).
Proof.
  split; [| split; [| split]].
  - unfold oat_FindMethod.
    destruct (oat_FindDirectMethod oc result descriptor signature)
      as [direct r1].
    simpl. intros ->. reflexivity.
  - unfold oat_FindMethod.
    destruct (oat_FindDirectMethod oc result descriptor signature)
      as [direct r1].
    simpl. intros ->.
    destruct (oat_FindVirtualMethod oc r1 descriptor signature)
      as [virt r2].
    destruct virt; reflexivity.
  - intros m. apply oat_FindMethod_record.
  - intros Hnull.
    unfold oat_FindMethod, oat_FindDirectMethod, oat_FindVirtualMethod.
    destruct oc as [c |]; [| destruct result; reflexivity].
    destruct result as [r |]; [| reflexivity].
    destruct descriptor as [desc |]; [| reflexivity].
    destruct signature as [sig |]; [| reflexivity].
    destruct Hnull as [H | [H | [H | H]]]; discriminate.
Qed.

(** X17.  The lookups compose: for a dex-file record handed out by
    [oat_GetOatDexFile] or [oat_FindDexFile] on image [f], a class found in
    it by [oat_FindClassInDex] and a method found in that class by
    [oat_FindMethod], [oat_HasQuickCompiledCode] tells whether the
    compiled-code-offset accessor has an entry for the method; when it has
    one, with code offset [k], the entry point is the pointer sum of
    [begin f] and [k] (the number [begin f + k] when that lies inside the
    address space), and when it has none the entry-point function
    dereferences the null record. *)
Theorem entry_point_through_lookups (f : OatFile) (d : OatDexFile)
    (c : OatClass) (m : OatMethod) (rs : option OatDexFile) (i : Z)
    (location : option cstring) (cs : option OatClass)
    (descriptor mdescriptor signature : option cstring)
    (ms : option OatMethod) :
  oat_GetOatDexFile (Some f) rs i = (true, Some d)
  \/ oat_FindDexFile (Some f) rs location = (true, Some d) ->
  oat_FindClassInDex (Some d) cs descriptor = Returns (true, Some c) ->
  oat_FindMethod (Some c) ms mdescriptor signature = (true, Some m) ->
  match GetOatMethodOffsets (oat_class_data c)
          (class_method_idx (dex_method m)) with
  | Some o =>
      oat_HasQuickCompiledCode (Some m) = true
      /\ oat_GetQuickCompiledEntryPoint (Some m)
         = Returns (ptr_add (begin f) (code_offset_ o))
      /\ (0 <= begin f -> 0 <= code_offset_ o ->
          begin f + code_offset_ o < 2 ^ pointer_bits ->
          oat_GetQuickCompiledEntryPoint (Some m)
          = Returns (begin f + code_offset_ o))
  | None =>
      oat_HasQuickCompiledCode (Some m) = false
      /\ oat_GetQuickCompiledEntryPoint (Some m) = NullDereference
  end.
Proof.
  intros Hd Hc Hm.
  assert (Hf : oat_file d = Some f).
  { destruct Hd as [Hd | Hd].
    - destruct (oat_GetOatDexFile_found _ _ _ _ Hd) as (f0 & Hf & _ & Hr & _).
      injection Hf as <-. rewrite Hr. reflexivity.
    - destruct (oat_FindDexFile_found _ _ _ _ Hd)
        as (f0 & k & Hf & _ & Hr & _).
      injection Hf as <-. rewrite Hr. reflexivity. }
  pose proof (oat_FindClassInDex_found _ _ _ _ Hc) as Hback.
  destruct (oat_FindMethod_record _ _ _ _ _ Hm) as (c0 & Hc0 & Hcls & Hoff).
  injection Hc0 as <-.
  rewrite <- Hoff.
  destruct (oat_method_offsets m) as [o |] eqn:Eo.
  - split; [unfold oat_HasQuickCompiledCode; rewrite Eo; reflexivity |].
    destruct o as [k].
    pose proof (oat_GetQuickCompiledEntryPoint_chain m c d f k
                  Eo Hcls Hback Hf) as E.
    split; [exact E |].
    intros Hb Hk Hfit. rewrite E. f_equal.
    apply (ptr_add_small (begin f) k Hb Hk Hfit).
  - split; [unfold oat_HasQuickCompiledCode; rewrite Eo; reflexivity |].
    apply entry_point_absent_offsets. exact Eo.
Qed.

(** X18.  A lookup that returns false leaves the back-references of its
    slot as they were: [oat_GetOatDexFile] those of the dex-file record,
    [oat_FindClassInDex] that of the class record, [oat_FindMethod] that of
    the method record together with its compiled-code-offset pointer. *)
Theorem failed_lookups_keep_back_references :
  (forall (f : OatFile) (r r' : OatDexFile) (i : Z),
     oat_GetOatDexFile (Some f) (Some r) i = (false, Some r') ->
     oat_file r' = oat_file r /\ index r' = index r)
  /\ (forall (d : OatDexFile) (c c' : OatClass) (descriptor : cstring),
        oat_FindClassInDex (Some d) (Some c) (Some descriptor)
        = Returns (false, Some c') ->
        oat_dex_file c' = oat_dex_file c)
  /\ (forall (c : OatClass) (r r' : OatMethod)
             (descriptor signature : cstring),
        oat_FindMethod (Some c) (Some r) (Some descriptor) (Some signature)
        = (false, Some r') ->
        oat_class r' = oat_class r
        /\ oat_method_offsets r' = oat_method_offsets r).
Proof.
  split; [| split].
  - intros f r r' i. unfold oat_GetOatDexFile.
    destruct (negb (i <? NumDexFiles (header f))).
    + intros H. injection H as <-. auto.
    + destruct (oat_GetOatDexFile_loop _ _ f (data r)) as [ok d].
      destruct ok; simpl; [discriminate |].
      intros H. injection H as <-. auto.
  - intros d c c' descriptor. unfold oat_FindClassInDex.
    destruct (dex_FindClass (dex_file_pointer (data d)) descriptor)
      as [hit dc].
    destruct hit; simpl.
    + destruct (oat_file d) as [f |]; simpl; [| discriminate].
      destruct (DecodeOatClassData _ (end_ f)) as [ok cd].
      destruct ok; simpl; [discriminate |].
      intros H. injection H as <-. reflexivity.
    + intros H. injection H as <-. reflexivity.
  - intros c r r' descriptor signature.
    unfold oat_FindMethod, oat_FindDirectMethod, oat_FindVirtualMethod.
    destruct (dex_FindDirectMethod (dex_class c) descriptor signature)
      as [dhit dm].
    destruct (dex_FindVirtualMethod (dex_class c) descriptor signature)
      as [vhit vm].
    destruct dhit, vhit; simpl; try discriminate.
    intros H. injection H as <-. auto.
Qed.

Section CodePointer.
Variable InstructionPointerToCodePointer : ptr -> ptr.

(** X19.  [oat_GetQuickCompiledMemoryPointer] applies the architecture's
    transform to whatever the entry-point function gives: to the pointer
    sum of [begin f] and [k] for a compiled method (the number
    [begin f + k] when that lies inside the address space), and also to the
    [NULL] returned
    for a null method pointer, which is not checked again; for a method
    without compiled code it dereferences the null offsets record like the
    entry-point function it calls. *)
Theorem oat_GetQuickCompiledMemoryPointer_spec (m : OatMethod)
    (c : OatClass) (d : OatDexFile) (f : OatFile) :
  oat_class m = Some c ->
  oat_dex_file c = Some d ->
  oat_file d = Some f ->
  (forall k,
     oat_method_offsets m = Some {| code_offset_ := k |} ->
     oat_GetQuickCompiledMemoryPointer InstructionPointerToCodePointer (Some m)
     = Returns (InstructionPointerToCodePointer (ptr_add (begin f) k))
     /\ (0 <= begin f -> 0 <= k -> begin f + k < 2 ^ pointer_bits ->
         oat_GetQuickCompiledMemoryPointer InstructionPointerToCodePointer
           (Some m)
         = Returns (InstructionPointerToCodePointer (begin f + k))))
  /\ (oat_method_offsets m = None ->
      oat_GetQuickCompiledMemoryPointer InstructionPointerToCodePointer
        (Some m)
      = NullDereference)
  /\ oat_GetQuickCompiledMemoryPointer InstructionPointerToCodePointer None
     = Returns (InstructionPointerToCodePointer NULL).
Proof.
  intros Hc Hd Hf. unfold oat_GetQuickCompiledMemoryPointer.
  split; [| split].
  - intros k Ho.
    rewrite (oat_GetQuickCompiledEntryPoint_chain m c d f k Ho Hc Hd Hf).
    split; [reflexivity |].
    intros Hb Hk Hfit. rewrite (ptr_add_small (begin f) k Hb Hk Hfit).
    reflexivity.
  - intros Ho. rewrite (entry_point_absent_offsets m Ho). reflexivity.
  - reflexivity.
Qed.

End CodePointer.

End MethodBehaviour.

(** ** More on the image context and on damaged streams *)
Section ContextBehaviour.
Context {X : Externals}.

(** X10.  On a context built by [oat_Setup] the offset resolver never
    yields the header itself for an offset that stays inside the address
    space: for a 32-bit offset [o] with [mem_begin + o] below [2^32] it
    returns [NULL] exactly when the offset is 0 and an address strictly
    above the header otherwise. *)
Theorem resolver_after_setup (result : OatFile) (mem_begin mem_end : ptr)
    (o : Z) :
  0 <= mem_begin ->
  0 <= o < 2 ^ 32 ->
  mem_begin + o < 2 ^ pointer_bits ->
  fst (oat_Setup result mem_begin mem_end) = true ->
  let ctx := snd (oat_Setup result mem_begin mem_end) in
  header ctx = mem_begin
  /\ oat_PointerFromFileOffset (Some ctx) o <> header ctx
  /\ (oat_PointerFromFileOffset (Some ctx) o = NULL <-> o = 0)
  /\ (o <> 0 -> header ctx < oat_PointerFromFileOffset (Some ctx) o).
Proof.
  intros Hb Ho Hfit. unfold oat_Setup, NULL.
  destruct (Z.eqb_spec mem_begin 0) as [Hz | Hnz]; simpl; [discriminate |].
  destruct (Z.eqb_spec mem_end 0) as [Hez | Henz]; simpl; [discriminate |].
  destruct (Z.gtb_spec mem_end mem_begin) as [Hlt | Hle]; simpl;
    [| discriminate].
  intros _. unfold oat_PointerFromFileOffset, NULL. simpl.
  destruct (Z.eqb_spec o 0) as [-> | Hno].
  - repeat split; auto; try lia.
  - assert (E : ptr_add mem_begin o = mem_begin + o)
      by (apply ptr_add_small; [exact Hb | lia | exact Hfit]).
    rewrite E. repeat split; try lia.
Qed.

(** The specification outcome of a walk that meets an undecodable record
    before any match. *)
Lemma spec_find_by_location_from_failure (f : OatFile) (location : cstring)
    (n : nat) :
  forall (cursor : ptr) (k : nat),
    (k < n)%nat ->
    walk_record cursor f k = None ->
    (forall j dj, (j < k)%nat -> walk_record cursor f j = Some dj ->
                  location_matches location dj = false) ->
    spec_find_by_location_from n cursor f location = failure.
Proof.
  induction n as [| n IH]; intros cursor k Hk Hnone Hbefore; [lia |].
  simpl. rewrite walk_record_step in Hnone.
  pose proof (fun j dj Hj => Hbefore j dj Hj) as Hb.
  destruct (ReadOatDexFileData cursor (end_ f) (header f))
    as [[ok c'] d] eqn:ER.
  destruct ok; [| reflexivity].
  destruct k as [| k']; [discriminate |].
  assert (H0 : location_matches location d = false).
  { apply (Hbefore O d); [lia |]. rewrite walk_record_step, ER. reflexivity. }
  rewrite H0. apply (IH c' k'); [lia | exact Hnone |].
  intros j dj Hj Hw. apply (Hbefore (S j) dj); [lia |].
  rewrite walk_record_step, ER. exact Hw.
Qed.

(** X8.  [oat_FindDexFile] on a stream that is damaged further on: a
    record that matches the query is still found when it and the records
    before it decode, whatever follows; and when a record cannot be decoded
    and none before it matches, the result is false, the walk having ended
    in a decode failure. *)
Theorem oat_FindDexFile_on_damaged_stream (f : OatFile) (r : OatDexFile)
    (location : cstring) (k : nat) :
  Z.of_nat k < NumDexFiles (header f) ->
  (forall j dj, (j < k)%nat -> stream_record f j = Some dj ->
                ~ exact_match location dj) ->
  (forall d, stream_record f k = Some d ->
             exact_match location d ->
             oat_FindDexFile (Some f) (Some r) (Some location)
             = (true, Some (record_at f (Z.of_nat k) d)))
  /\ (stream_record f k = None ->
      fst (oat_FindDexFile (Some f) (Some r) (Some location)) = false
      /\ spec_find_by_location f location = failure).
Proof.
  intros Hk Hbefore.
  assert (Hb : forall j dj, (j < k)%nat ->
                 walk_record (GetDexFileStoragePointer (header f)) f j
                 = Some dj ->
                 location_matches location dj = false).
  { intros j dj Hj Hw.
    destruct (location_matches location dj) eqn:E; [| reflexivity].
    apply location_matches_iff in E. elim (Hbefore j dj Hj Hw E). }
  split.
  - intros d Hs Hm. apply location_matches_iff in Hm.
    unfold oat_FindDexFile, stream_record in *.
    destruct (oat_FindDexFile_loop (Z.to_nat (NumDexFiles (header f))) 0
                (GetDexFileStoragePointer (header f)) f r location)
      as [b r'] eqn:E.
    assert (Htrue : b = true).
    { pose proof (oat_FindDexFile_loop_finds f location
                    (Z.to_nat (NumDexFiles (header f))) 0
                    (GetDexFileStoragePointer (header f)) r k d) as H.
      rewrite E in H. apply H; [lia | exact Hs | exact Hm]. }
    subst b.
    destruct (oat_FindDexFile_loop_found _ _ _ _ _ _ _ E)
      as (k' & Hk' & Hr' & Hw' & Hm' & Hbefore').
    assert (Heq : k' = k).
    { destruct (PeanoNat.Nat.lt_trichotomy k' k) as [Hlt | [Heq | Hgt]].
      - rewrite (Hb k' (data r') Hlt Hw') in Hm'. discriminate.
      - exact Heq.
      - rewrite (Hbefore' k d Hgt Hs) in Hm. discriminate. }
    subst k'. rewrite Hs in Hw'. injection Hw' as Hd.
    rewrite Hr', <- Hd. reflexivity.
  - intros Hnone.
    assert (Hspec : spec_find_by_location f location = failure).
    { unfold spec_find_by_location.
      apply (spec_find_by_location_from_failure f location _ _ k);
        [lia | exact Hnone | exact Hb]. }
    split; [| exact Hspec].
    unfold oat_FindDexFile.
    pose proof (oat_FindDexFile_loop_reported
                  (Z.to_nat (NumDexFiles (header f))) 0
                  (GetDexFileStoragePointer (header f)) f r location) as H.
    unfold spec_find_by_location in Hspec. rewrite Hspec in H.
    destruct (oat_FindDexFile_loop _ 0 _ f r location) as [b r'].
    exact H.
Qed.

End ContextBehaviour.

(** * The properties on the sample image *)

Import Sample.

Lemma sample_stream :
  dex_file_stream image = Some [data record0; data record1].
Proof. vm_compute. reflexivity. Qed.

Lemma sample_count : NumDexFiles (header image) < 2 ^ 32.
Proof. vm_compute. reflexivity. Qed.

(** Offset 86 of the sample image resolves to address 4182, offset 0 to
    [NULL]. *)
Lemma oat_PointerFromFileOffset_spec_witness :
  0 <= 86 < 2 ^ 32
  /\ oat_PointerFromFileOffset (Some image) 86 = begin image + 86
  /\ oat_PointerFromFileOffset (Some image) 0 = NULL.
Proof.
  assert (H86 : 0 <= 86 < 2 ^ 32) by lia.
  assert (H0 : 0 <= 0 < 2 ^ 32) by lia.
  split; [exact H86 |]. split.
  - apply (proj1 (proj2 (oat_PointerFromFileOffset_spec image 86 H86))).
    + lia.
    + vm_compute. discriminate.
    + vm_compute. reflexivity.
  - apply (proj1 (proj2 (proj2 (oat_PointerFromFileOffset_spec image 0 H0)))).
    reflexivity.
Defined.

(** A mapping of four bytes is accepted although the region starts derived
    from the header lie past its end; an inverted range is refused. *)
Lemma oat_Setup_spec_witness :
  fst (oat_Setup blank_file 4096 4100) = true
  /\ dex_file_storage_start (snd (oat_Setup blank_file 4096 4100)) = 4112
  /\ fst (oat_Setup blank_file 4100 4096) = false.
Proof.
  assert (Hok : fst (oat_Setup blank_file 4096 4100) = true) by reflexivity.
  split; [exact Hok |]. split.
  - rewrite (proj1 (proj2 (proj2 (oat_Setup_spec blank_file 4096 4100)))
               Hok).
    reflexivity.
  - apply (proj1 (oat_Setup_spec blank_file 4100 4096)).
    right. right. lia.
Defined.

(** Method ["e"] of class ["B"] is found and has no compiled code: asking
    for its entry point dereferences the null offsets pointer. *)
Lemma entry_point_of_uncompiled_method_witness :
  oat_FindMethod (Some class_B) (Some blank_method) (Some desc_B) (Some sig_e)
  = (true, Some method_e)
  /\ oat_method_offsets method_e = None
  /\ oat_HasQuickCompiledCode (Some method_e) = false
  /\ oat_GetQuickCompiledEntryPoint (Some method_e) = NullDereference
  /\ oat_GetQuickCompiledEntryPoint (Some method_e) <> Returns NULL.
Proof.
  assert (H1 : oat_FindMethod (Some class_B) (Some blank_method)
                 (Some desc_B) (Some sig_e) = (true, Some method_e))
    by reflexivity.
  assert (H2 : oat_method_offsets method_e = None) by reflexivity.
  exact (conj H1 (conj H2
           (entry_point_of_uncompiled_method _ _ _ _ _ (or_introl H1) H2))).
Defined.

(** Method ["d"] of class ["B"], compiled at offset 120, has its entry
    point at 4096 + 120. *)
Lemma oat_GetQuickCompiledEntryPoint_spec_witness :
  oat_method_offsets method_d = Some {| code_offset_ := 120 |}
  /\ oat_GetQuickCompiledEntryPoint (Some method_d) = Returns (4096 + 120).
Proof.
  split; [reflexivity |].
  apply (proj1 (oat_GetQuickCompiledEntryPoint_spec method_d class_B record1
                  image 120 eq_refl eq_refl eq_refl eq_refl)).
Defined.

(** On the sample image index 1 yields the second record of the walk and
    index 2 is refused. *)
Lemma oat_GetOatDexFile_agrees_with_walk_witness :
  dex_file_stream image = Some [data record0; data record1]
  /\ (exists d r',
        nth_error [data record0; data record1] (Z.to_nat 1) = Some d
        /\ oat_GetOatDexFile (Some image) (Some blank_dex) 1 = (true, Some r')
        /\ r' = record_at image 1 d
        /\ location_string (data r') = location_string d)
  /\ oat_GetOatDexFile (Some image) (Some blank_dex) 2 = (false, Some blank_dex).
Proof.
  pose proof (oat_GetOatDexFile_agrees_with_walk image blank_dex
                [data record0; data record1]) as H.
  split; [exact sample_stream |]. split.
  - apply (proj1 (H 1 sample_stream sample_count)). vm_compute. split.
    + discriminate.
    + reflexivity.
  - apply (proj2 (H 2 sample_stream sample_count)). vm_compute. discriminate.
Defined.

(** ["classes.dex"] is found at index 0; its prefix ["classes"] is not
    found. *)
Lemma oat_FindDexFile_exact_match_witness :
  dex_file_stream image = Some [data record0; data record1]
  /\ fst (oat_FindDexFile (Some image) (Some blank_dex) (Some classes_prefix))
     = false
  /\ spec_find_by_location image classes_prefix = not_found
  /\ oat_FindDexFile (Some image) (Some blank_dex) (Some classes_dex)
     = (true, Some record0).
Proof.
  pose proof (oat_FindDexFile_exact_match image blank_dex) as H.
  split; [exact sample_stream |].
  assert (Hprefix : forall d, In d [data record0; data record1] ->
                              ~ exact_match classes_prefix d).
  { intros d [<- | [<- | []]] [Hlen _]; vm_compute in Hlen; discriminate. }
  destruct (proj1 (H classes_prefix _ sample_stream) Hprefix) as [H1 H2].
  split; [exact H1 |]. split; [exact H2 |].
  apply (proj1 (proj2 (H classes_dex _ sample_stream)) O (data record0)).
  - reflexivity.
  - split; vm_compute; reflexivity.
  - intros j d' Hj. inversion Hj.
Defined.

(** Class ["B"] is searched across the sample image: the first record has
    the class but its metadata cannot be decoded, the second record has it
    and is returned. *)
Lemma oat_FindClass_search_witness :
  dex_file_count_ (header image) = NumDexFiles (header image)
  /\ spec_find_class image record0 desc_B = failure
  /\ spec_find_class image record1 desc_B = found
  /\ exists c' : OatClass,
       oat_dex_file c' = Some record1
       /\ oat_FindClass (Some image) (Some blank_dex) (Some blank_class)
            (Some desc_B) blank_dex blank_class
          = Returns (true, Some record1, Some c').
Proof.
  assert (Hcount : dex_file_count_ (header image) = NumDexFiles (header image))
    by reflexivity.
  assert (H0 : spec_find_class image record0 desc_B = failure)
    by (vm_compute; reflexivity).
  assert (H1 : spec_find_class image record1 desc_B = found)
    by (vm_compute; reflexivity).
  split; [exact Hcount |]. split; [exact H0 |]. split; [exact H1 |].
  apply (proj1 (oat_FindClass_search image (Some blank_dex) (Some blank_class)
                  desc_B blank_dex blank_class Hcount sample_count)
           1%nat (data record1)).
  - vm_compute. reflexivity.
  - vm_compute. reflexivity.
  - exact H1.
  - intros j dj Hj Hs. right.
    assert (j = O) by lia. subst j.
    vm_compute in Hs. injection Hs as <-. exact H0.
Defined.

(** For class ["B"] of the second record, whose offset is 86, both variants
    of the class resolver return the same class record. *)
Lemma class_resolver_variants_agree_witness :
  resolved_class_offset record1 desc_B <> 0
  /\ Terse.oat_FindClass (Some record1) (Some blank_class) (Some desc_B)
     = oat_FindClassInDex (Some record1) (Some blank_class) (Some desc_B).
Proof.
  assert (H : resolved_class_offset record1 desc_B <> 0)
    by (vm_compute; discriminate).
  split; [exact H |].
  apply (proj1 (class_resolver_variants_agree record1 blank_class desc_B H)).
Defined.

(** On the sample image the flag of [oat_FindDexFile] is what the outcome
    reports, for a query that is not found and on a mapping cut short. *)
Lemma search_results_are_two_valued_witness :
  oat_file record1 = Some image
  /\ fst (oat_FindDexFile (Some image) (Some blank_dex) (Some classes_prefix))
     = reported (spec_find_by_location image classes_prefix)
  /\ reported not_found = reported failure.
Proof.
  pose proof (search_results_are_two_valued image blank_dex record1
                blank_class class_B blank_method classes_prefix desc_B sig_d
                eq_refl eq_refl sample_count) as H.
  split; [reflexivity |]. split.
  - apply (proj1 H).
  - apply (proj2 (proj2 (proj2 (proj2 (proj2 H))))).
Defined.

(** The records found on the sample image point back to what was queried:
    all five lookups are run, from slots that point nowhere. *)
Lemma lookups_set_back_references_witness :
  oat_FindDexFile (Some image) (Some blank_dex) (Some classes2_dex)
  = (true, Some record1)
  /\ oat_file record1 = Some image
  /\ oat_GetOatDexFile (Some image) (Some blank_dex) (Z.of_nat 1)
     = (true, Some record1)
  /\ oat_FindClassInDex (Some record1) (Some blank_class) (Some desc_B)
     = Returns (true, Some class_B)
  /\ oat_dex_file class_B = Some record1
  /\ oat_FindDirectMethod (Some class_B) (Some blank_method) (Some desc_B)
       (Some sig_d)
     = (true, Some method_d)
  /\ oat_class method_d = Some class_B
  /\ oat_FindVirtualMethod (Some class_B) (Some blank_method) (Some desc_B)
       (Some sig_v)
     = (true, Some sample_method_v)
  /\ oat_class sample_method_v = Some class_B
  /\ (exists r',
        oat_FindDexFile (Some image) (Some blank_dex) (Some classes_dex)
        = (true, Some r')
        /\ oat_file r' = Some image
        /\ 0 <= index r' <= Z.of_nat 0)
  /\ (exists c',
        oat_FindClassInDex (Some record1) (Some blank_class) (Some desc_B)
        = Returns (true, Some c')
        /\ oat_dex_file c' = Some record1)
  /\ (exists m,
        oat_FindDirectMethod (Some class_B) (Some blank_method) (Some desc_B)
          (Some sig_e) = (true, Some m)
        /\ oat_class m = Some class_B)
  /\ (exists m,
        oat_FindVirtualMethod (Some class_B) (Some blank_method)
          (Some desc_B) (Some sig_v) = (true, Some m)
        /\ oat_class m = Some class_B).
Proof.
  destruct (@lookups_set_back_references externals)
    as (Hdex & Hget & Hcls & Hdir & Hvir
        & Edex & Eget & Ecls & Edir & Evir).
  assert (H1 : oat_FindDexFile (Some image) (Some blank_dex)
                 (Some classes2_dex) = (true, Some record1))
    by (vm_compute; reflexivity).
  assert (H2 : oat_FindClassInDex (Some record1) (Some blank_class)
                 (Some desc_B) = Returns (true, Some class_B))
    by reflexivity.
  assert (H3 : oat_FindDirectMethod (Some class_B) (Some blank_method)
                 (Some desc_B) (Some sig_d) = (true, Some method_d))
    by reflexivity.
  assert (H4 : oat_FindVirtualMethod (Some class_B) (Some blank_method)
                 (Some desc_B) (Some sig_v) = (true, Some sample_method_v))
    by reflexivity.
  assert (Hk0 : Z.of_nat 0 < NumDexFiles (header image))
    by (vm_compute; reflexivity).
  assert (Hk1 : Z.of_nat 1 < NumDexFiles (header image))
    by (vm_compute; reflexivity).
  assert (Hs0 : stream_record image 0 = Some (data record0))
    by (vm_compute; reflexivity).
  assert (Hs1 : stream_record image 1 = Some (data record1))
    by (vm_compute; reflexivity).
  assert (Hm0 : exact_match classes_dex (data record0))
    by (split; vm_compute; reflexivity).
  assert (Hc1 : spec_find_class image record1 desc_B = found)
    by (vm_compute; reflexivity).
  split; [exact H1 |]. split; [exact (proj1 (Hdex _ _ _ _ H1)) |].
  split; [exact (Eget image blank_dex 1%nat (data record1) sample_count
                   Hk1 Hs1) |].
  split; [exact H2 |]. split; [exact (Hcls _ _ _ _ H2) |].
  split; [exact H3 |]. split; [exact (Hdir _ _ _ _ _ H3) |].
  split; [exact H4 |]. split; [exact (Hvir _ _ _ _ _ H4) |].
  split; [exact (Edex image blank_dex classes_dex O (data record0)
                   Hk0 Hs0 Hm0) |].
  split; [exact (Ecls image record1 blank_class desc_B eq_refl Hc1) |].
  split; [exact (Edir class_B blank_method desc_B sig_e eq_refl) |].
  exact (Evir class_B blank_method desc_B sig_v eq_refl).
Defined.

(** ** Where the code departs from the specification *)

(** C2, counterexample.  On the sample image the query ["classes"] is not
    found, and on the mapping cut short it meets a record that cannot be
    decoded; [oat_FindDexFile] returns false both times, so no reading of
    its result tells the two apart.  The same holds for the class
    resolver. *)
Lemma not_found_and_failure_reported_alike :
  spec_find_by_location image classes_prefix = not_found
  /\ spec_find_by_location truncated classes_prefix = failure
  /\ fst (oat_FindDexFile (Some image) (Some blank_dex) (Some classes_prefix))
     = fst (oat_FindDexFile (Some truncated) (Some blank_dex)
              (Some classes_prefix))
  /\ ~ (exists classify : bool -> Outcome,
          forall (f : OatFile) (location : cstring),
            classify (fst (oat_FindDexFile (Some f) (Some blank_dex)
                             (Some location)))
            = spec_find_by_location f location)
  /\ ~ (exists classify : bool -> Outcome,
          forall (d : OatDexFile) (descriptor : cstring),
            oat_file d = Some image ->
            forall b c',
              oat_FindClassInDex (Some d) (Some blank_class) (Some descriptor)
              = Returns (b, c') ->
              classify b = spec_find_class image d descriptor).
Proof.
  split; [vm_compute; reflexivity |].
  split; [vm_compute; reflexivity |].
  split; [vm_compute; reflexivity |].
  split.
  - intros [classify H].
    pose proof (H image classes_prefix) as H1.
    pose proof (H truncated classes_prefix) as H2.
    vm_compute in H1, H2. congruence.
  - intros [classify H].
    assert (H1 : classify false = spec_find_class image record0 desc_C).
    { eapply (H record0 desc_C eq_refl). reflexivity. }
    assert (H2 : classify false = spec_find_class image record0 desc_B).
    { eapply (H record0 desc_B eq_refl). reflexivity. }
    vm_compute in H1, H2. congruence.
Qed.

(** C3, counterexample.  On the sample image the search for class ["B"]
    meets a class-metadata decode failure on the first dex-file record; the
    class resolver returns false there, [oat_FindClass] goes on to the
    second record and returns true. *)
Lemma class_decode_failure_is_passed_over :
  oat_GetOatDexFile (Some image) (Some blank_dex) 0 = (true, Some record0)
  /\ spec_find_class image record0 desc_B = failure
  /\ fst (match oat_FindClassInDex (Some record0) (Some blank_class)
                  (Some desc_B) with
          | Returns x => x
          | NullDereference => (true, None)
          end) = false
  /\ oat_FindClass (Some image) (Some blank_dex) (Some blank_class)
       (Some desc_B) blank_dex blank_class
     = Returns (true, Some record1, Some class_B)
  /\ ~ (forall descriptor : cstring,
          spec_find_class image record0 descriptor = failure ->
          exists d c,
            oat_FindClass (Some image) (Some blank_dex) (Some blank_class)
              (Some descriptor) blank_dex blank_class
            = Returns (false, d, c)).
Proof.
  split; [vm_compute; reflexivity |].
  split; [vm_compute; reflexivity |].
  split; [reflexivity |].
  assert (Hrun : oat_FindClass (Some image) (Some blank_dex) (Some blank_class)
                   (Some desc_B) blank_dex blank_class
                 = Returns (true, Some record1, Some class_B))
    by reflexivity.
  split; [exact Hrun |].
  intros H. destruct (H desc_B) as (d & c & Hd).
  - vm_compute. reflexivity.
  - rewrite Hrun in Hd. discriminate.
Qed.

(** C4, counterexample.  Class ["A"] of the first record of the sample
    image has class-definition offset 0: the terse variant decodes the
    class metadata at the start of the image and succeeds, the richer
    variant hands [NULL] to the decoder and fails. *)
Lemma class_resolver_variants_differ_at_offset_zero :
  resolved_class_offset record0 desc_A = 0
  /\ Terse.oat_class_def_pointer image record0
       (resolved_class_def_index record0 desc_A) = 4096
  /\ oat_class_def_pointer record0 (resolved_class_def_index record0 desc_A)
     = NULL
  /\ Terse.oat_FindClass (Some record0) (Some blank_class) (Some desc_A)
     = Returns (true, Some {| dex_class := 4175; oat_class_data := 4096;
                              oat_dex_file := Some record0 |})
  /\ oat_FindClassInDex (Some record0) (Some blank_class) (Some desc_A)
     = Returns (false, Some {| dex_class := 4175; oat_class_data := 0;
                               oat_dex_file := None |})
  /\ Terse.oat_FindClass (Some record0) (Some blank_class) (Some desc_A)
     <> oat_FindClassInDex (Some record0) (Some blank_class) (Some desc_A).
Proof.
  assert (Hterse :
    Terse.oat_FindClass (Some record0) (Some blank_class) (Some desc_A)
    = Returns (true, Some {| dex_class := 4175; oat_class_data := 4096;
                             oat_dex_file := Some record0 |}))
    by reflexivity.
  assert (Hrich :
    oat_FindClassInDex (Some record0) (Some blank_class) (Some desc_A)
    = Returns (false, Some {| dex_class := 4175; oat_class_data := 0;
                              oat_dex_file := None |}))
    by reflexivity.
  split; [vm_compute; reflexivity |].
  split; [vm_compute; reflexivity |].
  split; [vm_compute; reflexivity |].
  split; [exact Hterse |]. split; [exact Hrich |].
  rewrite Hterse, Hrich. discriminate.
Qed.

(** ** Further runs on the sample image *)

(** ["classes2.dex"] is found at index 1, and index 1 gives that record. *)
Lemma oat_FindDexFile_then_GetOatDexFile_witness :
  oat_FindDexFile (Some image) (Some blank_dex) (Some classes2_dex)
  = (true, Some record1)
  /\ 0 <= index record1 < NumDexFiles (header image)
  /\ oat_GetOatDexFile (Some image) (Some blank_dex) (index record1)
     = (true, Some record1).
Proof.
  assert (H : oat_FindDexFile (Some image) (Some blank_dex)
                (Some classes2_dex) = (true, Some record1))
    by (vm_compute; reflexivity).
  split; [exact H |].
  exact (oat_FindDexFile_then_GetOatDexFile image blank_dex blank_dex record1
           classes2_dex sample_count H).
Defined.

(** Index 1 gives the record of ["classes2.dex"], and that location finds
    it again. *)
Lemma oat_GetOatDexFile_then_FindDexFile_witness :
  oat_GetOatDexFile (Some image) (Some blank_dex) 1 = (true, Some record1)
  /\ exact_match classes2_dex (data record1)
  /\ exists r'' : OatDexFile,
       oat_FindDexFile (Some image) (Some blank_dex) (Some classes2_dex)
       = (true, Some r'')
       /\ 0 <= index r'' <= 1
       /\ location_bytes (data r'') = location_bytes (data record1).
Proof.
  assert (Hg : oat_GetOatDexFile (Some image) (Some blank_dex) 1
               = (true, Some record1)) by (vm_compute; reflexivity).
  assert (Hm : exact_match classes2_dex (data record1))
    by (split; vm_compute; reflexivity).
  assert (H1 : 0 <= 1) by lia.
  split; [exact Hg |]. split; [exact Hm |].
  exact (oat_GetOatDexFile_then_FindDexFile image blank_dex blank_dex record1
           1 classes2_dex sample_count H1 Hg Hm).
Defined.

(** On the sample image index 1 succeeds, hence index 0; on the mapping cut
    short index 1 fails. *)
Lemma oat_GetOatDexFile_prefix_closed_witness :
  fst (oat_GetOatDexFile (Some image) (Some blank_dex) 1) = true
  /\ fst (oat_GetOatDexFile (Some image) (Some blank_dex) 0) = true
  /\ fst (oat_GetOatDexFile (Some truncated) (Some blank_dex) 1) = false.
Proof.
  assert (H1 : fst (oat_GetOatDexFile (Some image) (Some blank_dex) 1) = true)
    by (vm_compute; reflexivity).
  assert (H01 : 0 <= 0 <= 1) by lia.
  assert (H11 : 0 <= 1 <= 1) by lia.
  split; [exact H1 |]. split.
  - exact (proj1 (oat_GetOatDexFile_prefix_closed image blank_dex blank_dex
                    1 0 sample_count H01) H1).
  - apply (proj2 (oat_GetOatDexFile_prefix_closed truncated blank_dex
                    blank_dex 1 1 sample_count H11)).
    vm_compute. reflexivity.
Defined.

(** After the prefix ["classes"] was not found, the slot holds the second
    record. *)
Lemma oat_FindDexFile_not_found_slot_witness :
  dex_file_stream image = Some [data record0; data record1]
  /\ oat_FindDexFile (Some image) (Some blank_dex) (Some classes_prefix)
     = (false, Some record1).
Proof.
  split; [exact sample_stream |].
  apply (oat_FindDexFile_not_found_slot image blank_dex classes_prefix
           [data record0; data record1] sample_stream).
  intros d [<- | [<- | []]] [Hlen _]; vm_compute in Hlen; discriminate.
Defined.

(** The record found for ["classes.dex"] carries exactly these bytes. *)
Lemma oat_FindDexFile_result_matches_witness :
  oat_FindDexFile (Some image) (Some blank_dex) (Some classes_dex)
  = (true, Some record0)
  /\ exists loc : cstring,
       Some classes_dex = Some loc
       /\ exact_match loc (data record0)
       /\ ~ In 0 (location_bytes (data record0)).
Proof.
  assert (H : oat_FindDexFile (Some image) (Some blank_dex)
                (Some classes_dex) = (true, Some record0))
    by (vm_compute; reflexivity).
  split; [exact H |].
  exact (oat_FindDexFile_result_matches _ _ _ _ H).
Defined.

(** A context with another [begin] finds ["classes2.dex"] just the same. *)
Lemma directory_lookups_read_header_and_end_witness :
  end_ image = end_ relocated_image
  /\ header image = header relocated_image
  /\ fst (oat_FindDexFile (Some image) (Some blank_dex) (Some classes2_dex))
     = fst (oat_FindDexFile (Some relocated_image) (Some blank_dex)
              (Some classes2_dex)).
Proof.
  assert (He : end_ image = end_ relocated_image) by reflexivity.
  assert (Hh : header image = header relocated_image) by reflexivity.
  split; [exact He |]. split; [exact Hh |].
  exact (proj1 (proj1 (directory_lookups_read_header_and_end image
                         relocated_image blank_dex classes2_dex 0 He Hh))).
Defined.

(** On the mapping cut short inside the second record, ["classes.dex"] is
    still found and ["classes2.dex"] ends in a decode failure. *)
Lemma oat_FindDexFile_on_damaged_stream_witness :
  stream_record truncated 1 = None
  /\ oat_FindDexFile (Some truncated) (Some blank_dex) (Some classes_dex)
     = (true, Some (record_at truncated 0 (data record0)))
  /\ fst (oat_FindDexFile (Some truncated) (Some blank_dex)
            (Some classes2_dex)) = false
  /\ spec_find_by_location truncated classes2_dex = failure.
Proof.
  assert (Hnone : stream_record truncated 1 = None)
    by (vm_compute; reflexivity).
  assert (H0 : Z.of_nat 0 < NumDexFiles (header truncated))
    by (vm_compute; reflexivity).
  assert (H1 : Z.of_nat 1 < NumDexFiles (header truncated))
    by (vm_compute; reflexivity).
  assert (Hb0 : forall j dj, (j < 0)%nat ->
                  stream_record truncated j = Some dj ->
                  ~ exact_match classes_dex dj)
    by (intros j dj Hj; lia).
  assert (Hb1 : forall j dj, (j < 1)%nat ->
                  stream_record truncated j = Some dj ->
                  ~ exact_match classes2_dex dj).
  { intros j dj Hj Hs [Hlen _]. assert (j = O) by lia. subst j.
    vm_compute in Hs. injection Hs as <-.
    vm_compute in Hlen. discriminate. }
  split; [exact Hnone |]. split.
  - apply (proj1 (oat_FindDexFile_on_damaged_stream truncated blank_dex
                    classes_dex O H0 Hb0)).
    + vm_compute. reflexivity.
    + split; vm_compute; reflexivity.
  - exact (proj2 (oat_FindDexFile_on_damaged_stream truncated blank_dex
                    classes2_dex 1%nat H1 Hb1) Hnone).
Defined.

(** The context over the zero bytes counts no record: nothing is found and
    the slots stay as they were. *)
Lemma lookups_on_empty_image_witness :
  NumDexFiles (header empty_image) <= 0
  /\ oat_FindDexFile (Some empty_image) (Some blank_dex) (Some classes_dex)
     = (false, Some blank_dex)
  /\ oat_GetOatDexFile (Some empty_image) (Some blank_dex) 0
     = (false, Some blank_dex)
  /\ oat_FindClass (Some empty_image) (Some blank_dex) (Some blank_class)
       (Some desc_B) blank_dex blank_class
     = Returns (false, Some blank_dex, Some blank_class).
Proof.
  assert (HN : NumDexFiles (header empty_image) <= 0)
    by (vm_compute; discriminate).
  assert (Hc : dex_file_count_ (header empty_image) <= 0)
    by (vm_compute; discriminate).
  assert (H0 : 0 <= 0) by lia.
  split; [exact HN |].
  exact (lookups_on_empty_image empty_image blank_dex (Some blank_dex)
           (Some blank_class) classes_dex desc_B 0 blank_dex blank_class
           HN Hc H0).
Defined.

(** On the context set up for the sample mapping, offset 86 resolves above
    the header. *)
Lemma resolver_after_setup_witness :
  fst (oat_Setup blank_file 4096 4236) = true
  /\ header image = 4096
  /\ oat_PointerFromFileOffset (Some image) 86 <> header image
  /\ (oat_PointerFromFileOffset (Some image) 86 = NULL <-> 86 = 0)
  /\ (86 <> 0 -> header image < oat_PointerFromFileOffset (Some image) 86).
Proof.
  assert (Hb : 0 <= 4096) by lia.
  assert (Ho : 0 <= 86 < 2 ^ 32) by lia.
  assert (Hfit : 4096 + 86 < 2 ^ pointer_bits) by reflexivity.
  assert (Hs : fst (oat_Setup blank_file 4096 4236) = true) by reflexivity.
  split; [exact Hs |].
  exact (resolver_after_setup blank_file 4096 4236 86 Hb Ho Hfit Hs).
Defined.

(** The first record, handed out by [oat_GetOatDexFile], makes the class
    resolver return. *)
Lemma class_resolvers_fault_iff_witness :
  oat_GetOatDexFile (Some image) (Some blank_dex) 0 = (true, Some record0)
  /\ oat_FindClassInDex (Some record0) (Some blank_class) (Some desc_B)
     <> NullDereference.
Proof.
  assert (H : oat_GetOatDexFile (Some image) (Some blank_dex) 0
              = (true, Some record0)) by (vm_compute; reflexivity).
  split; [exact H |].
  exact (proj1 (proj2 (proj2 (class_resolvers_fault_iff record0 blank_class
                                desc_B)))
           (Some image) (Some blank_dex) 0 H).
Defined.

(** Class ["B"] is found across the sample image with and without result
    slots. *)
Lemma oat_FindClass_null_slots_witness :
  NumDexFiles (header image) < 2 ^ 32
  /\ exists (b : bool) (d' : OatDexFile) (c' : OatClass),
       oat_FindClass (Some image) (Some blank_dex) (Some blank_class)
         (Some desc_B) blank_dex blank_class
       = Returns (b, Some d', Some c')
       /\ oat_FindClass (Some image) None None (Some desc_B)
            blank_dex blank_class
          = Returns (b, None, None).
Proof.
  split; [exact sample_count |].
  exact (oat_FindClass_null_slots image blank_dex blank_class desc_B
           blank_dex blank_dex blank_class blank_class sample_count).
Defined.

(** The search for class ["B"] hands back the second record and its class
    record, as the two-step lookup does. *)
Lemma oat_FindClass_result_witness :
  oat_FindClass (Some image) (Some blank_dex) (Some blank_class)
    (Some desc_B) blank_dex blank_class
  = Returns (true, Some record1, Some class_B)
  /\ oat_file record1 = Some image
  /\ 0 <= index record1 < NumDexFiles (header image)
  /\ index record1 < dex_file_count_ (header image)
  /\ oat_dex_file class_B = Some record1
  /\ oat_GetOatDexFile (Some image) (Some blank_dex) (index record1)
     = (true, Some record1)
  /\ oat_FindClassInDex (Some record1) (Some blank_class) (Some desc_B)
     = Returns (true, Some class_B).
Proof.
  assert (H : oat_FindClass (Some image) (Some blank_dex) (Some blank_class)
                (Some desc_B) blank_dex blank_class
              = Returns (true, Some record1, Some class_B)) by reflexivity.
  split; [exact H |].
  exact (oat_FindClass_result image blank_dex blank_dex blank_class
           blank_class desc_B blank_dex blank_class record1 class_B
           sample_count H).
Defined.

(** Class ["B"] of the second record has definition index 0: by index and
    by descriptor the same class record is returned. *)
Lemma oat_GetClass_agrees_with_FindClassInDex_witness :
  resolved_class_def_index record1 desc_B = 0
  /\ oat_GetClass sample_get_class (Some record1) (Some blank_class)
       (resolved_class_def_index record1 desc_B)
     = oat_FindClassInDex (Some record1) (Some blank_class) (Some desc_B).
Proof.
  assert (Hi : resolved_class_def_index record1 desc_B = 0)
    by (vm_compute; reflexivity).
  assert (Hhit : fst (dex_FindClass (dex_file_pointer (data record1)) desc_B)
                 = true) by reflexivity.
  assert (Hsmall : resolved_class_def_index record1 desc_B < 2 ^ 16)
    by (rewrite Hi; reflexivity).
  assert (Hsame : sample_get_class (dex_file_pointer (data record1))
                    (resolved_class_def_index record1 desc_B)
                  = dex_FindClass (dex_file_pointer (data record1)) desc_B)
    by reflexivity.
  split; [exact Hi |].
  exact (oat_GetClass_agrees_with_FindClassInDex sample_get_class record1
           blank_class desc_B Hhit Hsmall Hsame).
Defined.

(** Class definition 0 of the second record is class ["B"], pointing back
    to the record. *)
Lemma oat_GetClass_result_witness :
  oat_GetClass sample_get_class (Some record1) (Some blank_class) 0
  = Returns (true, Some class_B)
  /\ oat_dex_file class_B = Some record1.
Proof.
  assert (H : oat_GetClass sample_get_class (Some record1) (Some blank_class)
                0 = Returns (true, Some class_B)) by reflexivity.
  split; [exact H |].
  exact (proj1 (proj1 (oat_GetClass_result sample_get_class (Some record1)
                         (Some blank_class) 0) class_B H)).
Defined.

(** Method ["v"] is no direct method of class ["B"]; [oat_FindMethod] gives
    what the virtual finder gives on the slot the direct attempt left, a
    record that points back to class ["B"]. *)
Lemma oat_FindMethod_direct_then_virtual_witness :
  fst (oat_FindDirectMethod (Some class_B) (Some blank_method) (Some desc_B)
         (Some sig_v)) = false
  /\ oat_FindMethod (Some class_B) (Some blank_method) (Some desc_B)
       (Some sig_v)
     = oat_FindVirtualMethod (Some class_B)
         (snd (oat_FindDirectMethod (Some class_B) (Some blank_method)
                 (Some desc_B) (Some sig_v)))
         (Some desc_B) (Some sig_v)
  /\ oat_FindMethod (Some class_B) (Some blank_method) (Some desc_B)
       (Some sig_v)
     = (true, Some sample_method_v)
  /\ exists c : OatClass,
       Some class_B = Some c
       /\ oat_class sample_method_v = Some c
       /\ oat_method_offsets sample_method_v
          = GetOatMethodOffsets (oat_class_data c)
              (class_method_idx (dex_method sample_method_v)).
Proof.
  assert (H : fst (oat_FindDirectMethod (Some class_B) (Some blank_method)
                     (Some desc_B) (Some sig_v)) = false) by reflexivity.
  assert (Hm : oat_FindMethod (Some class_B) (Some blank_method)
                 (Some desc_B) (Some sig_v) = (true, Some sample_method_v))
    by reflexivity.
  pose proof (oat_FindMethod_direct_then_virtual (Some class_B)
                (Some blank_method) (Some desc_B) (Some sig_v)) as T.
  split; [exact H |]. split; [exact (proj1 (proj2 T) H) |].
  split; [exact Hm |].
  exact (proj1 (proj2 (proj2 T)) sample_method_v Hm).
Defined.

(** From index 1 to class ["B"] to method ["d"]: the entry point is
    4096 + 120. *)
Lemma entry_point_through_lookups_witness :
  oat_GetOatDexFile (Some image) (Some blank_dex) 1 = (true, Some record1)
  /\ oat_FindClassInDex (Some record1) (Some blank_class) (Some desc_B)
     = Returns (true, Some class_B)
  /\ oat_FindMethod (Some class_B) (Some blank_method) (Some desc_B)
       (Some sig_d)
     = (true, Some method_d)
  /\ oat_HasQuickCompiledCode (Some method_d) = true
  /\ oat_GetQuickCompiledEntryPoint (Some method_d) = Returns (4096 + 120).
Proof.
  assert (H1 : oat_GetOatDexFile (Some image) (Some blank_dex) 1
               = (true, Some record1)) by (vm_compute; reflexivity).
  assert (H2 : oat_FindClassInDex (Some record1) (Some blank_class)
                 (Some desc_B) = Returns (true, Some class_B))
    by reflexivity.
  assert (H3 : oat_FindMethod (Some class_B) (Some blank_method)
                 (Some desc_B) (Some sig_d) = (true, Some method_d))
    by reflexivity.
  split; [exact H1 |]. split; [exact H2 |]. split; [exact H3 |].
  pose proof (entry_point_through_lookups image record1 class_B method_d
                (Some blank_dex) 1 None (Some blank_class) (Some desc_B)
                (Some desc_B) (Some sig_d) (Some blank_method)
                (or_introl H1) H2 H3) as H.
  change (oat_HasQuickCompiledCode (Some method_d) = true
          /\ oat_GetQuickCompiledEntryPoint (Some method_d)
             = Returns (4096 + 120)
          /\ (0 <= begin image -> 0 <= 120 ->
              begin image + 120 < 2 ^ pointer_bits ->
              oat_GetQuickCompiledEntryPoint (Some method_d)
              = Returns (begin image + 120))) in H.
  exact (conj (proj1 H) (proj1 (proj2 H))).
Defined.

(** Class ["C"] is not in the first record: the class slot keeps its
    back-reference. *)
Lemma failed_lookups_keep_back_references_witness :
  oat_FindClassInDex (Some record0) (Some class_B) (Some desc_C)
  = Returns (false, Some {| dex_class := 0; oat_class_data := 4182;
                            oat_dex_file := Some record1 |})
  /\ oat_dex_file {| dex_class := 0; oat_class_data := 4182;
                     oat_dex_file := Some record1 |}
     = oat_dex_file class_B.
Proof.
  assert (H : oat_FindClassInDex (Some record0) (Some class_B) (Some desc_C)
              = Returns (false, Some {| dex_class := 0;
                                        oat_class_data := 4182;
                                        oat_dex_file := Some record1 |}))
    by reflexivity.
  split; [exact H |].
  exact (proj1 (proj2 (@failed_lookups_keep_back_references externals))
           record0 class_B _ desc_C H).
Defined.

(** The code pointer of method ["v"] is its entry point 4096 + 130 with
    the low bit cleared. *)
Lemma oat_GetQuickCompiledMemoryPointer_spec_witness :
  oat_class sample_method_v = Some class_B
  /\ oat_GetQuickCompiledMemoryPointer sample_code_pointer
       (Some sample_method_v)
     = Returns (sample_code_pointer (begin image + 130)).
Proof.
  split; [reflexivity |].
  exact (proj1 (proj1 (oat_GetQuickCompiledMemoryPointer_spec
                         sample_code_pointer sample_method_v class_B record1
                         image eq_refl eq_refl eq_refl)
                  130 eq_refl)).
Defined.
